(** * openintern MCP server: protocol dispatcher and memory tools

    A shallow embedding of [mcp_server/protocol/mcp.py] and
    [mcp_server/tools/memory.py], followed by the properties stated in the
    specification.

    Conventions of the embedding.
    - A Python [str] is a Rocq [string]; a character is a code point below
      256, and [isspace], [isalnum] and [lower] are CPython's on that range.
    - A value that came out of [json.loads] is a [json]; a Python [dict]
      keeps its insertion order and is an association list, read by first
      match.
    - Code that can raise returns an [outcome]; code that writes files
      threads the data directory [FS] explicitly; what a tool may change is
      a world [W] threaded through the dispatcher.
    - [json.dumps], [json.loads], [repr] and the iteration order of a [set]
      belong to the Python runtime and are the fields of [PyRuntime]; the
      entropy source and the clock are arguments of [memory.write]. *)

From Stdlib Require Import PrimFloat ZArith Ascii String.
From stdpp Require Import base option list gmap strings.

Local Open Scope Z_scope.

(** A Python [dict] with string keys, in insertion order. *)
Abbreviation dict V := (list (string * V)).

(** ** Python strings *)

Definition ord (c : ascii) : N := N_of_ascii c.

Definition between (lo hi n : N) : bool := ((lo <=? n) && (n <=? hi))%N.

(** [str.isspace] on one character. *)
Definition isspace (c : ascii) : bool :=
  let n := ord c in
  between 9 13 n || between 28 32 n || (n =? 133)%N || (n =? 160)%N.

(** [str.isalnum] on one character. *)
Definition isalnum (c : ascii) : bool :=
  let n := ord c in
  between 48 57 n || between 65 90 n || between 97 122 n
  || (n =? 170)%N || between 178 179 n || (n =? 181)%N
  || between 185 186 n || between 188 190 n
  || between 192 214 n || between 216 246 n || between 248 255 n.

(** [str.lower] on one character. *)
Definition lower_char (c : ascii) : ascii :=
  let n := ord c in
  if between 65 90 n || between 192 214 n || between 216 222 n
  then ascii_of_N (n + 32) else c.

(** [s.lower()] *)
Fixpoint lower (s : string) : string :=
  match s with
  | EmptyString => EmptyString
  | String c s' => String (lower_char c) (lower s')
  end.

(** [''.join(c for c in word if c.isalnum())] *)
Fixpoint keep_alnum (word : string) : string :=
  match word with
  | EmptyString => EmptyString
  | String c w => if isalnum c then String c (keep_alnum w) else keep_alnum w
  end.

(** [s.split()]: the maximal runs of non-whitespace characters, in order.
    [tok] is the run being read. *)
Fixpoint split_from (tok s : string) : list string :=
  match s with
  | EmptyString => if decide (tok = "") then [] else [tok]
  | String c s' =>
      if isspace c
      then (if decide (tok = "") then split_from "" s'
            else tok :: split_from "" s')
      else split_from (tok +:+ String c "") s'
  end.

Definition split (s : string) : list string := split_from "" s.

Fixpoint lstrip (s : string) : string :=
  match s with
  | EmptyString => EmptyString
  | String c s' => if isspace c then lstrip s' else s
  end.

Fixpoint rstrip (s : string) : string :=
  match s with
  | EmptyString => EmptyString
  | String c s' =>
      match rstrip s' with
      | EmptyString => if isspace c then EmptyString else String c EmptyString
      | r => String c r
      end
  end.

(** [s.strip()] *)
Definition strip (s : string) : string := rstrip (lstrip s).

(** [needle in hay] on two strings. *)
Fixpoint contains (needle hay : string) : bool :=
  String.prefix needle hay
  || match hay with
     | EmptyString => false
     | String _ hay' => contains needle hay'
     end.

Fixpoint all_space (s : string) : bool :=
  match s with
  | EmptyString => true
  | String c s' => isspace c && all_space s'
  end.

(** ** JSON values, as [json.loads] builds them *)

Inductive json : Type :=
  | JNull
  | JBool (b : bool)
  | JInt (z : Z)
  | JFloat (f : float)
  | JStr (s : string)
  | JArr (l : list json)
  | JObj (d : list (string * json)).

(** [d.get(k)] *)
Fixpoint dict_get {V} (k : string) (d : dict V) : option V :=
  match d with
  | [] => None
  | (k', v) :: d' => if decide (k' = k) then Some v else dict_get k d'
  end.

(** [d.get(k, dflt)] *)
Definition dict_get_default {V} (k : string) (dflt : V) (d : dict V) : V :=
  default dflt (dict_get k d).

(** [k in d] *)
Definition dict_mem {V} (k : string) (d : dict V) : bool :=
  match dict_get k d with Some _ => true | None => false end.

(** [d[k] = v]: an existing key keeps its place, a new one goes last. *)
Fixpoint dict_set {V} (k : string) (v : V) (d : dict V) : dict V :=
  match d with
  | [] => [(k, v)]
  | (k', v') :: d' =>
      if decide (k' = k) then (k, v) :: d' else (k', v') :: dict_set k v d'
  end.

(** [del d[k]] *)
Fixpoint dict_del {V} (k : string) (d : dict V) : dict V :=
  match d with
  | [] => []
  | (k', v') :: d' => if decide (k' = k) then d' else (k', v') :: dict_del k d'
  end.

(** [bool(x)]: [None], [False], zero, and the empty string, list and dict
    are false. *)
Definition truthy (x : json) : bool :=
  match x with
  | JNull => false
  | JBool b => b
  | JInt z => negb (z =? 0)
  | JFloat f => negb (PrimFloat.eqb f 0%float)
  | JStr s => negb (bool_decide (s = ""))
  | JArr l => negb (bool_decide (l = []))
  | JObj d => negb (bool_decide (d = []))
  end.

(** [type(x).__name__] *)
Definition type_name (x : json) : string :=
  match x with
  | JNull => "NoneType"
  | JBool _ => "bool"
  | JInt _ => "int"
  | JFloat _ => "float"
  | JStr _ => "str"
  | JArr _ => "list"
  | JObj _ => "dict"
  end.

(** ** The Python runtime

    What the code takes from the interpreter and its library and the
    embedding does not look into: [repr] of numbers, lists and dicts;
    [json.dumps]; [json.loads], which yields a value or the message of a
    [JSONDecodeError]; and the order in which a [set] is iterated, given the
    order in which its elements were added. *)
Class PyRuntime : Type := {
  py_repr : json -> string;
  json_dumps : json -> string;
  json_loads : string -> json + string;
  set_iter : list string -> list string;
  set_iter_perm : forall s, set_iter s ≡ₚ s;
}.

Section Definitions.
Context `{rt : PyRuntime}.

(** [str(x)], which is what an f-string field [{x}] inserts. *)
Definition py_str (x : json) : string :=
  match x with
  | JStr s => s
  | JNull => "None"
  | JBool true => "True"
  | JBool false => "False"
  | _ => py_repr x
  end.

(** ** Exceptions *)

(* JSON-RPC 2.0 Error Codes *)
Definition PARSE_ERROR : Z := -32700.
Definition INVALID_REQUEST : Z := -32600.
Definition METHOD_NOT_FOUND : Z := -32601.
Definition INVALID_PARAMS : Z := -32602.
Definition INTERNAL_ERROR : Z := -32603.

(** The subclasses of [Exception] the code raises or provokes. *)
Inductive exn : Type :=
  | MCPError (code : Z) (message : string) (data : json)
  | ValueError (msg : string)
  | TypeError (msg : string)
  | AttributeError (msg : string)
  | KeyError (key : string).

(** [str(e)] *)
Definition str_exn (e : exn) : string :=
  match e with
  | MCPError _ message _ => message
  | ValueError msg | TypeError msg | AttributeError msg => msg
  | KeyError key => "'" +:+ key +:+ "'"
  end.

Inductive outcome (A : Type) : Type :=
  | Return (a : A)
  | Raise (e : exn).
Global Arguments Return {A} a.
Global Arguments Raise {A} e.

Global Instance outcome_ret : MRet outcome := fun A a => Return a.
Global Instance outcome_bind : MBind outcome := fun A B f m =>
  match m with
  | Return a => f a
  | Raise e => Raise e
  end.

(** [x.attr] on a value whose type has no such attribute. *)
Definition no_attribute {A} (x : json) (attr : string) : outcome A :=
  Raise (AttributeError
    ("'" +:+ type_name x +:+ "' object has no attribute '" +:+ attr +:+ "'")).

(** [x.lower()] *)
Definition py_lower (x : json) : outcome string :=
  match x with
  | JStr s => Return (lower s)
  | _ => no_attribute x "lower"
  end.

(** [x.strip()] *)
Definition py_strip (x : json) : outcome string :=
  match x with
  | JStr s => Return (strip s)
  | _ => no_attribute x "strip"
  end.

(** [for v in x]: the values a [for] loop over [x] visits. *)
Definition py_iter (x : json) : outcome (list json) :=
  match x with
  | JArr l => Return l
  | JStr s => Return ((fun c => JStr (String c "")) <$> list_ascii_of_string s)
  | JObj d => Return ((fun kv => JStr kv.1) <$> d)
  | _ => Raise (TypeError ("'" +:+ type_name x +:+ "' object is not iterable"))
  end.

(** [d[k]] on a dict. *)
Definition subscript (d : dict json) (k : string) : outcome json :=
  match dict_get k d with
  | Some v => Return v
  | None => Raise (KeyError k)
  end.

(** [l[:stop]]: a negative [stop] counts from the end; [None] is no bound;
    a bool is an int. *)
Definition slice_stop (len stop : Z) : Z :=
  if stop <? 0 then Z.max 0 (len + stop) else Z.min stop len.

Definition py_slice_to {A} (l : list A) (stop : json) : outcome (list A) :=
  match stop with
  | JNull => Return l
  | JInt k => Return (take (Z.to_nat (slice_stop (Z.of_nat (length l)) k)) l)
  | JBool b =>
      let k := if b then 1 else 0 in
      Return (take (Z.to_nat (slice_stop (Z.of_nat (length l)) k)) l)
  | _ => Raise (TypeError
           "slice indices must be integers or None or have an __index__ method")
  end.

(** A Python [set] of strings: its elements without repetition, in the
    order they were added. Iterating it visits them in an order of the
    runtime's choosing. *)
Definition set_add (x : string) (s : list string) : list string :=
  if bool_decide (x ∈ s) then s else s ++ [x].

(** Keyword arguments: a call that unpacks [kwargs] over the parameters
    [params] of a method raises at the first key that names none of them
    ([self] is taken already), and otherwise when a parameter without
    default has no key. The messages are those of CPython 3.11. *)
Definition unexpected_kwarg (params : list string) (kwargs : dict json)
  : option string :=
  (fun r => r.2.1) <$> list_find (fun kv => kv.1 ∉ params) kwargs.

Definition bind_kwargs (fname : string) (required : string)
  (params : list string) (kwargs : dict json) : outcome unit :=
  match unexpected_kwarg params kwargs with
  | Some k =>
      if decide (k = "self")
      then Raise (TypeError
             (fname +:+ "() got multiple values for argument 'self'"))
      else Raise (TypeError
             (fname +:+ "() got an unexpected keyword argument '"
              +:+ k +:+ "'"))
  | None =>
      if dict_mem required kwargs then Return ()
      else Raise (TypeError
             (fname +:+ "() missing 1 required positional argument: '"
              +:+ required +:+ "'"))
  end.

(** ** The data directory

    [items] is the directory [memory/shared/items]: the file [<id>.json] and
    the JSON object in it. [index] is [memory/shared/index/keyword.json],
    absent until the first write; [index_tmp] is [keyword.json.tmp].
    An identifier names a file of [items] as it is written: the model does
    not follow path separators inside an identifier, and reading a file
    gives back the JSON value that was written to it. *)

Record FS : Type := {
  items : gmap string (dict json);
  index : option (dict (list string));
  index_tmp : option (dict (list string));
}.

Definition fs_empty : FS := {| items := ∅; index := None; index_tmp := None |}.

(** The dict literal [item] of [MemoryWriteTool.execute]: its five keys are
    fixed, [content] and [keywords] hold what the caller passed. *)
Record Item : Type := {
  item_id : string;
  item_created_at : string;
  item_updated_at : string;
  item_content : json;
  item_keywords : json;
}.

Definition item_to_dict (item : Item) : dict json :=
  [ ("id", JStr (item_id item));
    ("created_at", JStr (item_created_at item));
    ("updated_at", JStr (item_updated_at item));
    ("content", item_content item);
    ("keywords", item_keywords item) ].

(** ** memory.py *)

(** [string.ascii_letters + string.digits] *)
Definition chars : string :=
  "abcdefghijklmnopqrstuvwxyzABCDEFGHIJKLMNOPQRSTUVWXYZ0123456789".

(** [secrets.choice(chars)], where [r] is what the entropy source drew. *)
Definition secrets_choice (r : nat) : ascii :=
  default "a"%char (String.get (r mod String.length chars) chars).

(** [generate_memory_id()]; [rnd i] is the [i]-th draw. *)
Definition generate_memory_id (rnd : nat -> nat) : string :=
  let random_part :=
    string_of_list_ascii ((fun i => secrets_choice (rnd i)) <$> seq 0 12) in
  "mem_" +:+ random_part.

(** [MemoryWriteTool._extract_keywords] *)
Definition _extract_keywords (item : Item) : outcome (list string) :=
  (* Add explicit keywords *)
  kws ← py_iter (item_keywords item);
  tags ← mapM py_lower kws;
  let keywords := foldl (fun acc kw => set_add kw acc) [] tags in
  (* Extract words from content *)
  content ← py_lower (item_content item);
  let words := split content in
  let keywords :=
    foldl (fun acc word =>
             let cleaned := keep_alnum word in
             if (3 <=? String.length cleaned)%nat
             then set_add cleaned acc else acc)
          keywords words in
  mret (set_iter keywords).

(** One turn of the loop of [_update_keyword_index]. *)
Definition index_add (memory_id : string) (index : dict (list string))
  (keyword : string) : dict (list string) :=
  let index := if dict_mem keyword index then index
               else dict_set keyword [] index in
  let ids := dict_get_default keyword [] index in
  if bool_decide (memory_id ∈ ids) then index
  else dict_set keyword (ids ++ [memory_id]) index.

(** [MemoryWriteTool._update_keyword_index] *)
Definition _update_keyword_index (fs : FS) (item : Item) : FS * outcome unit :=
  (* Load existing index *)
  let index0 := default [] (index fs) in
  (* Extract keywords *)
  match _extract_keywords item with
  | Raise e => (fs, Raise e)
  | Return keywords =>
      (* Add item to index *)
      let index1 := foldl (index_add (item_id item)) index0 keywords in
      (* Save index atomically *)
      let fs1 := {| items := items fs; index := index fs;
                    index_tmp := Some index1 |} in
      let fs2 := {| items := items fs1; index := index_tmp fs1;
                    index_tmp := None |} in
      (fs2, Return ())
  end.

(** [MemoryWriteTool.execute(content, tags=None)]; [now] is
    [datetime.utcnow().isoformat()]. *)
Definition MemoryWriteTool_body (rnd : nat -> nat) (now : string) (fs : FS)
  (content tags : json) : FS * outcome json :=
  if negb (truthy content) then (fs, Raise (ValueError "content is required"))
  else
    let memory_id := generate_memory_id rnd in
    let now := now +:+ "Z" in
    let item := {| item_id := memory_id;
                   item_created_at := now;
                   item_updated_at := now;
                   item_content := content;
                   item_keywords := if truthy tags then tags else JArr [] |} in
    (* Write item file *)
    let fs1 := {| items := <[memory_id := item_to_dict item]> (items fs);
                  index := index fs; index_tmp := index_tmp fs |} in
    (* Update keyword index *)
    match _update_keyword_index fs1 item with
    | (fs2, Raise e) => (fs2, Raise e)
    | (fs2, Return _) =>
        (fs2, Return (JObj [("memory_id", JStr memory_id);
                            ("success", JBool true)]))
    end.

Definition MemoryWriteTool_execute (rnd : nat -> nat) (now : string) (fs : FS)
  (kwargs : dict json) : FS * outcome json :=
  match bind_kwargs "MemoryWriteTool.execute" "content" ["content"; "tags"]
          kwargs with
  | Raise e => (fs, Raise e)
  | Return _ =>
      MemoryWriteTool_body rnd now fs
        (dict_get_default "content" JNull kwargs)
        (dict_get_default "tags" JNull kwargs)
  end.

(** [MemorySearchTool._load_item] *)
Definition _load_item (fs : FS) (item_id : string) : option (dict json) :=
  items fs !! item_id.

(** The search of the index for matching keywords. *)
Definition matching_ids (query_lower : string) (index : dict (list string))
  : list string :=
  foldl (fun matching entry =>
           let '(keyword, ids) := entry in
           if contains query_lower keyword
           then foldl (fun acc item_id => set_add item_id acc) matching ids
           else matching)
        [] index.

(** The loop that loads the matching items. *)
Fixpoint load_results (fs : FS) (ids : list string) : outcome (list json) :=
  match ids with
  | [] => Return []
  | item_id :: ids' =>
      match _load_item fs item_id with
      | Some item =>
          if truthy (JObj item) then
            id ← subscript item "id";
            content ← subscript item "content";
            let result := JObj [("id", id); ("content", content);
                                ("keywords",
                                 dict_get_default "keywords" (JArr []) item)] in
            results ← load_results fs ids';
            mret (result :: results)
          else load_results fs ids'
      | None => load_results fs ids'
      end
  end.

Definition search_response (results : list json) : json :=
  JObj [("results", JArr results);
        ("count", JInt (Z.of_nat (length results)))].

(** [MemorySearchTool.execute(query, top_k=5)] *)
Definition MemorySearchTool_body (fs : FS) (query top_k : json)
  : outcome json :=
  if negb (truthy query) then Return (search_response [])
  else
    stripped ← py_strip query;
    if decide (stripped = "") then Return (search_response [])
    else
      query_lower ← py_lower query;
      (* Load keyword index *)
      let index := default [] (index fs) in
      (* Search index for matching keywords *)
      let matching := matching_ids query_lower index in
      (* Load matching items *)
      selected ← py_slice_to (set_iter matching) top_k;
      results ← load_results fs selected;
      mret (search_response results).

Definition MemorySearchTool_execute (fs : FS) (kwargs : dict json)
  : outcome json :=
  _ ← bind_kwargs "MemorySearchTool.execute" "query" ["query"; "top_k"] kwargs;
  MemorySearchTool_body fs
    (dict_get_default "query" JNull kwargs)
    (dict_get_default "top_k" (JInt 5) kwargs).

(** [MemoryGetTool.execute(memory_id)] *)
Definition MemoryGetTool_body (fs : FS) (memory_id : json) : outcome json :=
  if negb (truthy memory_id) then Raise (ValueError "memory_id is required")
  else
    match items fs !! py_str memory_id with
    | None => Return (JObj [("memory", JNull)])
    | Some item => Return (JObj [("memory", JObj item)])
    end.

Definition MemoryGetTool_execute (fs : FS) (kwargs : dict json)
  : outcome json :=
  _ ← bind_kwargs "MemoryGetTool.execute" "memory_id" ["memory_id"] kwargs;
  MemoryGetTool_body fs (dict_get_default "memory_id" JNull kwargs).

(** ** base.py

    A tool: its name, description and parameter schema, and [execute],
    which receives the keyword arguments and may change the world [W] it
    works on, whether it returns or raises. [func_str] is how CPython
    prints [execute] in the message of a [TypeError]: the module and the
    qualified name. *)

Context {W : Type}.

Record Tool : Type := {
  name : string;
  description : string;
  parameters : json;
  execute : W -> dict json -> W * outcome json;
  func_str : string;
}.

(** [Tool.to_dict] *)
Definition to_dict (tool : Tool) : json :=
  JObj [("name", JStr (name tool));
        ("description", JStr (description tool));
        ("inputSchema", parameters tool)].

(** ** mcp.py *)

Record MCPProtocol : Type := {
  tools : dict Tool;
  initialized : bool;
  _running : bool;
}.

(** [MCPProtocol.__init__] *)
Definition MCPProtocol_init : MCPProtocol :=
  {| tools := []; initialized := false; _running := false |}.

(** [MCPError.to_dict] *)
Definition error_to_dict (code : Z) (message : string) (data : json) : json :=
  let error := [("code", JInt code); ("message", JStr message)] in
  match data with
  | JNull => JObj error
  | _ => JObj (dict_set "data" data error)
  end.

Definition register_tool (self : MCPProtocol) (tool : Tool) : MCPProtocol :=
  {| tools := dict_set (name tool) tool (tools self);
     initialized := initialized self; _running := _running self |}.

Definition unregister_tool (self : MCPProtocol) (name : string)
  : MCPProtocol * bool :=
  if dict_mem name (tools self)
  then ({| tools := dict_del name (tools self);
           initialized := initialized self; _running := _running self |}, true)
  else (self, false).

Definition list_tools (self : MCPProtocol) : json :=
  let tools_list := (fun entry => to_dict entry.2) <$> tools self in
  JObj [("tools", JArr tools_list)].

(** [self.tools.get(name)]: the keys are strings, so a number or a bool
    finds nothing, and a list or a dict cannot be hashed. *)
Definition tools_get (self : MCPProtocol) (name : json)
  : outcome (option Tool) :=
  match name with
  | JStr s => Return (dict_get s (tools self))
  | JArr _ | JObj _ =>
      Raise (TypeError ("unhashable type: '" +:+ type_name name +:+ "'"))
  | _ => Return None
  end.

(** [tool.execute] called with [arguments] unpacked as keywords. *)
Definition execute_with (tool : Tool) (w : W) (arguments : json)
  : W * outcome json :=
  match arguments with
  | JObj kwargs => execute tool w kwargs
  | _ => (w, Raise (TypeError
                (func_str tool
                 +:+ "() argument after ** must be a mapping, not "
                 +:+ type_name arguments)))
  end.

(** [params.get(key, dflt)], where [params] need not be a dict. *)
Definition py_get (x : json) (key : string) (dflt : json) : outcome json :=
  match x with
  | JObj d => Return (dict_get_default key dflt d)
  | _ => no_attribute x "get"
  end.

(** [MCPProtocol.call_tool] *)
Definition call_tool (self : MCPProtocol) (w : W) (params : json)
  : W * outcome json :=
  match py_get params "name" JNull with
  | Raise e => (w, Raise e)
  | Return name =>
  match py_get params "arguments" (JObj []) with
  | Raise e => (w, Raise e)
  | Return arguments =>
      if negb (truthy name)
      then (w, Raise (MCPError INVALID_PARAMS "Missing tool name" JNull))
      else
        match tools_get self name with
        | Raise e => (w, Raise e)
        | Return None =>
            (w, Raise (MCPError METHOD_NOT_FOUND
                         ("Tool not found: " +:+ py_str name) JNull))
        | Return (Some tool) =>
            match execute_with tool w arguments with
            | (w', Return result) =>
                (w', Return
                   (JObj [("content",
                           JArr [JObj [("type", JStr "text");
                                       ("text", JStr (json_dumps result))]])]))
            | (w', Raise e) =>
                (w', Raise (MCPError INTERNAL_ERROR (str_exn e) JNull))
            end
        end
  end end.

(** [MCPProtocol._handle_initialize] *)
Definition _handle_initialize (self : MCPProtocol) (params : json)
  : MCPProtocol * json :=
  ({| tools := tools self; initialized := true; _running := _running self |},
   JObj [("protocolVersion", JStr "2024-11-05");
         ("capabilities", JObj [("tools", JObj [])]);
         ("serverInfo", JObj [("name", JStr "mcp-server");
                              ("version", JStr "0.1.0")])]).

(** [MCPProtocol._handle_shutdown] *)
Definition _handle_shutdown (self : MCPProtocol) : MCPProtocol * json :=
  ({| tools := tools self; initialized := initialized self;
      _running := false |},
   JObj []).

(** [MCPProtocol._make_response] *)
Definition _make_response (request_id result : json) : json :=
  JObj [("jsonrpc", JStr "2.0"); ("id", request_id); ("result", result)].

(** [MCPProtocol._make_error_response] *)
Definition _make_error_response (request_id : json)
  (code : Z) (message : string) (data : json) : json :=
  JObj [("jsonrpc", JStr "2.0"); ("id", request_id);
        ("error", error_to_dict code message data)].

(** [method == s] for a string literal [s]. *)
Definition is_method (method : json) (s : string) : bool :=
  match method with
  | JStr m => bool_decide (m = s)
  | _ => false
  end.

(** The body of the [try] of [handle_request], up to [result]. *)
Definition dispatch (self : MCPProtocol) (w : W) (method params : json)
  : MCPProtocol * W * outcome json :=
  if is_method method "initialize" then
    let '(self', result) := _handle_initialize self params in
    (self', w, Return result)
  else if is_method method "tools/list" then
    (self, w, Return (list_tools self))
  else if is_method method "tools/call" then
    let '(w', result) := call_tool self w params in
    (self, w', result)
  else if is_method method "shutdown" then
    let '(self', result) := _handle_shutdown self in
    (self', w, Return result)
  else
    (self, w, Raise (MCPError METHOD_NOT_FOUND
                       ("Unknown method: " +:+ py_str method) JNull)).

(** [MCPProtocol.handle_request]. The three [request.get] calls come before
    the [try]; what the [try] body raises is turned into a response. *)
Definition handle_request (self : MCPProtocol) (w : W) (request : json)
  : outcome (MCPProtocol * W * json) :=
  request_id ← py_get request "id" JNull;
  method ← py_get request "method" JNull;
  params ← py_get request "params" (JObj []);
  let '(self', w', result) := dispatch self w method params in
  mret (self', w',
        match result with
        | Return result => _make_response request_id result
        | Raise (MCPError code message data) =>
            _make_error_response request_id code message data
        | Raise e =>
            _make_error_response request_id INTERNAL_ERROR (str_exn e) JNull
        end).

Definition newline : string := String (ascii_of_nat 10) "".

(** The [while] loop of [MCPProtocol.run]. [stdin] holds the lines still to
    be read, the end of the list being the end of the input; the result
    carries the lines written to stdout. *)
Fixpoint run_loop (self : MCPProtocol) (w : W) (stdin : list string)
  : MCPProtocol * W * list string :=
  match stdin with
  | [] => (self, w, [])
  | line :: stdin' =>
      if negb (_running self) then (self, w, [])
      else if decide (line = "") then (self, w, [])
      else
        let line := strip line in
        if decide (line = "") then run_loop self w stdin'
        else
          match json_loads line with
          | inl request =>
              match handle_request self w request with
              | Return (self', w', response) =>
                  let '(self'', w'', out) := run_loop self' w' stdin' in
                  (self'', w'', (json_dumps response +:+ newline) :: out)
              | Raise e => (self, w, [])
              end
          | inr e =>
              let response := _make_error_response JNull PARSE_ERROR e JNull in
              let '(self', w', out) := run_loop self w stdin' in
              (self', w', (json_dumps response +:+ newline) :: out)
          end
  end.

(** [MCPProtocol.run] *)
Definition run (self : MCPProtocol) (w : W) (stdin : list string)
  : MCPProtocol * W * list string :=
  run_loop {| tools := tools self; initialized := initialized self;
              _running := true |} w stdin.

End Definitions.
Arguments Tool W : clear implicits.
Arguments MCPProtocol W : clear implicits.

(** ** server.py

    The world of the memory tools is the data directory together with the
    number of writes made so far: the [n]-th write draws [entropy n] and
    reads the clock as [clock n]. *)

Section Server.
Context `{rt : PyRuntime}.
Variable entropy : nat -> nat -> nat.
Variable clock : nat -> string.

Definition World : Type := FS * nat.

Definition string_schema (descr : string) : json :=
  JObj [("type", JStr "string"); ("description", JStr descr)].

Definition MemoryWriteTool : Tool World := {|
  name := "memory.write";
  description := "Write a memory item to the memory store";
  parameters :=
    JObj [("type", JStr "object");
          ("properties",
           JObj [("content", string_schema "The content to remember");
                 ("tags",
                  JObj [("type", JStr "array");
                        ("items", JObj [("type", JStr "string")]);
                        ("description",
                         JStr "Optional tags for categorization")])]);
          ("required", JArr [JStr "content"])];
  execute := fun w kwargs =>
    let '(fs, result) :=
      MemoryWriteTool_execute (entropy w.2) (clock w.2) w.1 kwargs in
    ((fs, S w.2), result);
  func_str := "mcp_server.tools.memory.MemoryWriteTool.execute";
|}.

Definition MemorySearchTool : Tool World := {|
  name := "memory.search";
  description := "Search for memories by keyword";
  parameters :=
    JObj [("type", JStr "object");
          ("properties",
           JObj [("query", string_schema "Search query");
                 ("top_k",
                  JObj [("type", JStr "integer");
                        ("description", JStr "Number of results to return");
                        ("default", JInt 5)])]);
          ("required", JArr [JStr "query"])];
  execute := fun w kwargs => (w, MemorySearchTool_execute w.1 kwargs);
  func_str := "mcp_server.tools.memory.MemorySearchTool.execute";
|}.

Definition MemoryGetTool : Tool World := {|
  name := "memory.get";
  description := "Get a specific memory by ID";
  parameters :=
    JObj [("type", JStr "object");
          ("properties",
           JObj [("memory_id", string_schema "The memory ID")]);
          ("required", JArr [JStr "memory_id"])];
  execute := fun w kwargs => (w, MemoryGetTool_execute w.1 kwargs);
  func_str := "mcp_server.tools.memory.MemoryGetTool.execute";
|}.

(** [MCPServer.__init__], which registers the memory tools. *)
Definition MCPServer_init : MCPProtocol World :=
  register_tool
    (register_tool (register_tool MCPProtocol_init MemoryWriteTool)
       MemorySearchTool)
    MemoryGetTool.

End Server.

(** ** A runtime to run the definitions on

    [json.loads] knows the empty object and the empty list, [json.dumps]
    and [repr] print the type of the value, and a set is iterated in the
    order of insertion. *)

Definition demo_loads (line : string) : json + string :=
  if decide (line = "{}") then inl (JObj [])
  else if decide (line = "[]") then inl (JArr [])
  else inr "Expecting value: line 1 column 1 (char 0)".

Definition demo_runtime : PyRuntime := {|
  py_repr := fun x => "<" +:+ type_name x +:+ ">";
  json_dumps := fun x => "<" +:+ type_name x +:+ ">";
  json_loads := demo_loads;
  set_iter := fun s => s;
  set_iter_perm := fun s => reflexivity s;
|}.

Definition demo_server : MCPProtocol World :=
  MCPServer_init (rt := demo_runtime)
    (fun _ i => i) (fun _ => "2024-01-01T00:00:00").

(** ** The specification's wording, for comparison with the code *)

(** The keywords of a record as the specification derives them: the tags,
    case-folded, and each whitespace-delimited token of the content,
    case-folded and stripped of non-alphanumeric characters, kept when at
    least three characters remain. *)
Definition keywords_spec (tags : list string) (content : string)
  : list string :=
  (lower <$> tags)
  ++ filter (fun w => (3 <= String.length w)%nat)
       ((fun token => keep_alnum (lower token)) <$> split content).

(** The invariant of the keyword index: under every keyword, each
    identifier names a record file that exists, and none occurs twice. *)
Definition index_ok (fs : FS) : Prop :=
  forall keyword ids, (keyword, ids) ∈ default [] (index fs) ->
    NoDup ids /\ forall id, id ∈ ids -> is_Some (items fs !! id).

(** Every record file holds at least an [id] and a [content]. *)
Definition records_ok (fs : FS) : Prop :=
  forall id item, items fs !! id = Some item ->
    is_Some (dict_get "id" item) /\ is_Some (dict_get "content" item).

(** The states of the data directory that calls of memory.write lead to,
    starting from an empty one. *)
Inductive reachable `{rt : PyRuntime} : FS -> Prop :=
  | reachable_empty : reachable fs_empty
  | reachable_write rnd now fs kwargs :
      reachable fs ->
      reachable (MemoryWriteTool_execute rnd now fs kwargs).1.

(** The entry of the search result for a record. *)
Definition search_result (item : dict json) : json :=
  JObj [("id", dict_get_default "id" JNull item);
        ("content", dict_get_default "content" JNull item);
        ("keywords", dict_get_default "keywords" (JArr []) item)].

(** The record files of the identifiers [ids], those that exist. *)
Definition load_existing (fs : FS) (ids : list string) : list (dict json) :=
  omap (fun id => items fs !! id) ids.

(** What [index_ok] asks of one id-list, for the record files [P]. *)
Definition ids_ok (P : string -> Prop) (entry : string * list string) : Prop :=
  NoDup entry.2 /\ forall id, id ∈ entry.2 -> P id.

(** The keyword arguments of a call of memory.get whose [memory_id] is a
    string or is left out. *)
Definition get_kwargs (memory_id : option string) : dict json :=
  match memory_id with
  | Some id => [("memory_id", JStr id)]
  | None => []
  end.

(** The item a successful write stores. *)
Definition written_item (rnd : nat -> nat) (now : string)
  (content : string) (tags : list string) : Item :=
  {| item_id := generate_memory_id rnd;
     item_created_at := now +:+ "Z";
     item_updated_at := now +:+ "Z";
     item_content := JStr content;
     item_keywords := JArr (JStr <$> tags) |}.

(** The result of [initialize]. *)
Definition initialize_result : json :=
  JObj [("protocolVersion", JStr "2024-11-05");
        ("capabilities", JObj [("tools", JObj [])]);
        ("serverInfo", JObj [("name", JStr "mcp-server");
                             ("version", JStr "0.1.0")])].

(** The text-content wrapping of a tool's return value. *)
Definition text_content `{rt : PyRuntime} (result : json) : json :=
  JObj [("content",
         JArr [JObj [("type", JStr "text");
                     ("text", JStr (json_dumps result))]])].

(** The bodies of the two loops of [_extract_keywords], on strings. *)
Definition add_tag (acc : list string) (kw : string) : list string :=
  set_add kw acc.

Definition add_word (acc : list string) (word : string) : list string :=
  if (3 <=? String.length (keep_alnum word))%nat
  then set_add (keep_alnum word) acc else acc.

(** ** Sample data *)

Definition demo_rnd (i : nat) : nat := (7 * i + 3)%nat.
Definition demo_now : string := "2024-01-01T00:00:00".

Definition demo_item : Item := {|
  item_id := "mem_abcdefghijkl";
  item_created_at := "2024-01-01T00:00:00Z";
  item_updated_at := "2024-01-01T00:00:00Z";
  item_content := JStr "Hello, big world! A1 ok";
  item_keywords := JArr [JStr "Test"; JStr "Example"];
|}.

Definition demo_record : dict json :=
  [("id", JStr "mem_1"); ("content", JStr "Hello world");
   ("keywords", JArr [])].

Definition demo_fs : FS :=
  {| items := {[ "mem_1" := demo_record ]};
     index := Some [("hello", ["mem_1"; "mem_gone"]); ("world", ["mem_1"])];
     index_tmp := None |}.

Definition demo_world : World := (demo_fs, 0%nat).

(** Two records tagged [a b], as two writes leave them. *)
Definition spaced_fs : FS :=
  let tagged := [("content", JStr "x1"); ("tags", JArr [JStr "a b"])] in
  let fs1 :=
    (MemoryWriteTool_execute (rt := demo_runtime) (fun i => i) demo_now
       fs_empty tagged).1 in
  (MemoryWriteTool_execute (rt := demo_runtime) (fun i => S i) demo_now
     fs1 tagged).1.

(** ** The rest of the two modules, and what they keep *)



(** An ASCII letter or digit. *)
Definition ascii_alnum (c : ascii) : bool :=
  between 48 57 (ord c) || between 65 90 (ord c) || between 97 122 (ord c).

(** No name is registered twice. *)
Definition registry_ok {W : Type} (self : MCPProtocol W) : Prop :=
  NoDup (tools self).*1.

(** No keyword is a key of the index twice. *)
Definition index_keys_ok (fs : FS) : Prop :=
  NoDup (default [] (index fs)).*1.

(** The [id] of every record is the name of its file. *)
Definition store_keyed (fs : FS) : Prop :=
  forall id item, items fs !! id = Some item ->
    dict_get "id" item = Some (JStr id).

(** The id-list of a keyword in the persisted index, empty when the keyword
    is not indexed. *)
Definition indexed_under (fs : FS) (keyword : string) : list string :=
  dict_get_default keyword [] (default [] (index fs)).

(** The item [MemoryWriteTool.execute] builds from its arguments. *)
Definition new_item (rnd : nat -> nat) (now : string) (content tags : json)
  : Item :=
  {| item_id := generate_memory_id rnd;
     item_created_at := now +:+ "Z";
     item_updated_at := now +:+ "Z";
     item_content := content;
     item_keywords := if truthy tags then tags else JArr [] |}.

(** The data directory once the record file of [item] is written. *)
Definition with_record (fs : FS) (item : Item) : FS :=
  {| items := <[item_id item := item_to_dict item]> (items fs);
     index := index fs; index_tmp := index_tmp fs |}.

(** What a slice accepts as a bound: an int, a bool or [None]. *)
Definition is_slice_index (x : json) : bool :=
  match x with
  | JInt _ | JBool _ | JNull => true
  | _ => false
  end.

(** The [id] field of a search result. *)
Definition result_id (result : json) : option json :=
  match result with
  | JObj d => dict_get "id" d
  | _ => None
  end.

(** A [tools/call] request for the tool [name]. *)
Definition tools_call_request (request_id : json) (name : string)
  (arguments : dict json) : json :=
  JObj [("jsonrpc", JStr "2.0"); ("id", request_id);
        ("method", JStr "tools/call");
        ("params", JObj [("name", JStr name);
                         ("arguments", JObj arguments)])].

(** The sample runtime, reading the line [bye] as a shutdown request. *)
Definition shutdown_runtime : PyRuntime := {|
  py_repr := py_repr (PyRuntime := demo_runtime);
  json_dumps := json_dumps (PyRuntime := demo_runtime);
  json_loads := fun line =>
    if decide (line = "bye")
    then inl (JObj [("id", JInt 1); ("method", JStr "shutdown")])
    else demo_loads line;
  set_iter := set_iter (PyRuntime := demo_runtime);
  set_iter_perm := set_iter_perm (PyRuntime := demo_runtime);
|}.


(** The error codes [handle_request] answers with. *)
Definition dispatch_codes : list Z :=
  [METHOD_NOT_FOUND; INVALID_PARAMS; INTERNAL_ERROR].

(** * Properties *)

(** ** Strings *)

Lemma isspace_lower_char c : isspace (lower_char c) = isspace c.
Proof. by destruct c as [[] [] [] [] [] [] [] []]. Qed.

Lemma lower_app s t : lower (s +:+ t) = lower s +:+ lower t.
Proof. induction s as [|c s IH]; simpl; [done | by rewrite IH]. Qed.

Lemma lower_empty s : lower s = "" <-> s = "".
Proof. by destruct s. Qed.

Lemma split_from_lower tok s :
  split_from (lower tok) (lower s) = lower <$> split_from tok s.
Proof.
  revert tok. induction s as [|c s IH]; intros tok; simpl.
  - destruct (decide (tok = "")) as [->|Hne]; [done |].
    rewrite decide_False; [done | by rewrite lower_empty].
  - rewrite isspace_lower_char. destruct (isspace c).
    + destruct (decide (tok = "")) as [->|Hne]; simpl.
      * apply (IH "").
      * rewrite decide_False by (by rewrite lower_empty).
        simpl. f_equal. apply (IH "").
    + rewrite <- IH. by rewrite lower_app.
Qed.

Lemma split_lower s : split (lower s) = lower <$> split s.
Proof. apply (split_from_lower ""). Qed.

Lemma rstrip_empty s : rstrip s = "" <-> all_space s = true.
Proof.
  induction s as [|c s IH]; simpl; [done |].
  destruct (rstrip s) eqn:Hr, (isspace c); simpl.
  - split; [intros _; by apply IH | done].
  - split; discriminate.
  - split; [discriminate |].
    intros Hs. apply IH in Hs. discriminate.
  - split; discriminate.
Qed.

Lemma lstrip_all_space s : all_space (lstrip s) = all_space s.
Proof.
  induction s as [|c s IH]; simpl; [done |].
  destruct (isspace c) eqn:Hc; simpl; [done | by rewrite Hc].
Qed.

(** [s.strip()] is empty exactly when [s] is empty or all whitespace. *)
Lemma strip_empty s : strip s = "" <-> all_space s = true.
Proof. unfold strip. by rewrite rstrip_empty, lstrip_all_space. Qed.

(** ** Sets *)

Lemma set_add_elem x y s : x ∈ set_add y s <-> x = y \/ x ∈ s.
Proof.
  unfold set_add. case_bool_decide as Hy.
  - split; [by right | intros [->|]; done].
  - rewrite elem_of_app, list_elem_of_singleton. tauto.
Qed.

Lemma set_add_NoDup y s : NoDup s -> NoDup (set_add y s).
Proof.
  intros Hs. unfold set_add. case_bool_decide as Hy; [done |].
  apply NoDup_app. split_and!; [done | | apply NoDup_singleton].
  intros x Hx ->%list_elem_of_singleton. done.
Qed.

(** A loop that adds some of the values it visits to a set. *)
Lemma foldl_set_add {A} (step : list string -> A -> list string)
    (f : A -> option string) (l : list A) s :
  (forall acc a,
     step acc a = match f a with Some x => set_add x acc | None => acc end) ->
  (NoDup s -> NoDup (foldl step s l)) /\
  (forall x, x ∈ foldl step s l <-> x ∈ s \/ x ∈ omap f l).
Proof.
  intros Hstep. revert s. induction l as [|a l IH]; intros s; simpl.
  - split; [done |]. intros x. rewrite elem_of_nil. tauto.
  - destruct (IH (step s a)) as [IHnd IHin]. rewrite Hstep in IHnd, IHin.
    rewrite Hstep. split.
    + intros Hs. apply IHnd. destruct (f a); [by apply set_add_NoDup | done].
    + intros x. rewrite IHin. destruct (f a) as [y|].
      * rewrite set_add_elem, elem_of_cons. tauto.
      * tauto.
Qed.

Lemma mapM_py_lower (tags : list string) :
  mapM py_lower (JStr <$> tags) = Return (lower <$> tags).
Proof.
  induction tags as [|t tags IH]; [done |].
  cbn. cbn in IH. by rewrite IH.
Qed.

(** ** Keyword extraction *)

Lemma omap_Some_fmap {A B} (g : A -> B) (l : list A) :
  omap (fun a => Some (g a)) l = g <$> l.
Proof. induction l as [|a l IH]; [done | cbn; by rewrite IH]. Qed.

Lemma extract_keywords_returns `{rt : PyRuntime} (item : Item)
    (tags : list string) (content : string) :
  item_keywords item = JArr (JStr <$> tags) ->
  item_content item = JStr content ->
  _extract_keywords item
  = Return (set_iter (foldl add_word (foldl add_tag [] (lower <$> tags))
                        (split (lower content)))).
Proof.
  intros Hk Hc. unfold _extract_keywords. rewrite Hk, Hc.
  cbn [py_iter mbind outcome_bind]. rewrite mapM_py_lower. reflexivity.
Qed.


Example extract_keywords_demo :
  _extract_keywords (rt := demo_runtime) demo_item
  = Return ["test"; "example"; "hello"; "big"; "world"].
Proof. vm_compute. reflexivity. Qed.


(** ** Dicts *)

Lemma dict_get_elem {V} k (v : V) d : dict_get k d = Some v -> (k, v) ∈ d.
Proof.
  induction d as [|[k' v'] d IH]; simpl; [done |].
  destruct (decide (k' = k)) as [->|Hne].
  - intros [= ->]. apply list_elem_of_here.
  - intros Hd. apply list_elem_of_further. by apply IH.
Qed.

Lemma dict_set_Forall {V} (Q : string * V -> Prop) k v d :
  Forall Q d -> Q (k, v) -> Forall Q (dict_set k v d).
Proof.
  intros Hd Hkv. induction Hd as [|[k' v'] d Hx Hd IH]; simpl.
  - by apply Forall_singleton.
  - destruct (decide (k' = k)); by apply Forall_cons.
Qed.

(** ** The keyword index *)

Lemma index_add_ok (P : string -> Prop) memory_id index keyword :
  P memory_id ->
  Forall (ids_ok P) index ->
  Forall (ids_ok P) (index_add memory_id index keyword).
Proof.
  intros Hid Hidx. unfold index_add.
  set (index1 := if dict_mem keyword index then index
                 else dict_set keyword [] index).
  assert (Forall (ids_ok P) index1) as H1.
  { unfold index1. destruct (dict_mem keyword index); [done |].
    apply dict_set_Forall; [done |]. split; simpl.
    - apply NoDup_nil_2.
    - intros id Hin. by apply elem_of_nil in Hin. }
  assert (ids_ok P (keyword, dict_get_default keyword [] index1)) as Hids.
  { unfold dict_get_default. destruct (dict_get keyword index1) eqn:Hg; simpl.
    - apply dict_get_elem in Hg. rewrite Forall_forall in H1. by apply H1.
    - split; simpl; [apply NoDup_nil_2 |].
      intros id Hin. by apply elem_of_nil in Hin. }
  case_bool_decide as Hin; [done |].
  apply dict_set_Forall; [done |]. destruct Hids as [Hnd HP]. simpl in *.
  split; simpl.
  - apply NoDup_app. split_and!; [done | | apply NoDup_singleton].
    intros x Hx ->%list_elem_of_singleton. done.
  - intros id [Hin'| ->%list_elem_of_singleton]%elem_of_app; auto.
Qed.

Lemma index_add_all_ok (P : string -> Prop) memory_id keywords index :
  P memory_id ->
  Forall (ids_ok P) index ->
  Forall (ids_ok P) (foldl (index_add memory_id) index keywords).
Proof.
  intros Hid. revert index.
  induction keywords as [|kw kws IH]; intros index Hidx; simpl; [done |].
  by apply IH, index_add_ok.
Qed.

Lemma index_ok_Forall fs :
  index_ok fs
  <-> Forall (ids_ok (fun id => is_Some (items fs !! id)))
        (default [] (index fs)).
Proof.
  unfold index_ok, ids_ok. rewrite Forall_forall. split.
  - intros H [kw ids] Hin. by apply (H kw).
  - intros H kw ids Hin. by apply (H (kw, ids)).
Qed.

Lemma ids_ok_mono (P Q : string -> Prop) index :
  (forall id, P id -> Q id) ->
  Forall (ids_ok P) index -> Forall (ids_ok Q) index.
Proof.
  intros HPQ Hidx. eapply Forall_impl; [done |].
  intros entry [Hnd HP]. split; auto.
Qed.

(** The index update keeps the record files, and keeps the invariant when
    the record of the item is among them. *)
Lemma update_keyword_index_ok `{rt : PyRuntime} fs item :
  index_ok fs ->
  is_Some (items fs !! item_id item) ->
  let fs' := (_update_keyword_index fs item).1 in
  items fs' = items fs /\ index_ok fs'.
Proof.
  intros Hok Hitem. unfold _update_keyword_index.
  destruct (_extract_keywords item) as [keywords|e]; simpl; [| done].
  split; [done |]. apply index_ok_Forall; simpl.
  apply index_add_all_ok; [done |]. by apply index_ok_Forall.
Qed.

Lemma write_body_ok `{rt : PyRuntime} rnd now fs content tags :
  index_ok fs ->
  let fs' := (MemoryWriteTool_body rnd now fs content tags).1 in
  index_ok fs' /\
  forall id, is_Some (items fs !! id) -> is_Some (items fs' !! id).
Proof.
  intros Hok. unfold MemoryWriteTool_body.
  destruct (truthy content); simpl; [| done].
  match goal with
  | |- context [_update_keyword_index ?fs1 ?item] =>
      pose proof (update_keyword_index_ok fs1 item) as Hupd;
      destruct (_update_keyword_index fs1 item) as [fs2 [u|e]]
  end; simpl in *.
  all: destruct Hupd as [Hitems Hok2];
    [ apply index_ok_Forall; simpl;
      eapply ids_ok_mono; [| by apply index_ok_Forall];
      intros id [v Hv]; simpl;
      destruct (decide (generate_memory_id rnd = id)) as [->|Hne];
      [ rewrite lookup_insert_eq; eauto
      | rewrite lookup_insert_ne by done; eauto ]
    | by rewrite lookup_insert_eq
    | split; [done |];
      intros id [v Hv]; rewrite Hitems; simpl;
      destruct (decide (generate_memory_id rnd = id)) as [->|Hne];
      [ rewrite lookup_insert_eq; eauto
      | rewrite lookup_insert_ne by done; eauto ] ].
Qed.

(** C7. The invariant of the keyword index is preserved by every call of
    memory.write, whatever its arguments and whether it returns or raises:
    afterwards each identifier under each keyword of the persisted index
    names an existing record file and occurs once in its id-list; and the
    call removes no record file. *)
Theorem write_preserves_index_ok `{rt : PyRuntime} (rnd : nat -> nat)
    (now : string) (fs : FS) (kwargs : dict json) :
  index_ok fs ->
  let fs' := (MemoryWriteTool_execute rnd now fs kwargs).1 in
  index_ok fs' /\
  forall id, is_Some (items fs !! id) -> is_Some (items fs' !! id).
Proof.
  intros Hok. unfold MemoryWriteTool_execute.
  destruct (bind_kwargs _ _ _ _) as [[]|e]; simpl.
  - (* the arguments bind: the body runs *)
    by apply write_body_ok.
  - (* they do not: nothing is written *)
    split; [exact Hok | auto].
Qed.

Lemma fs_empty_index_ok : index_ok fs_empty.
Proof. intros keyword ids Hin. by apply elem_of_nil in Hin. Qed.

Lemma write_preserves_index_ok_witness :
  index_ok fs_empty /\
  let fs' := (MemoryWriteTool_execute (rt := demo_runtime) demo_rnd demo_now
                fs_empty [("content", JStr "Hello world")]).1 in
  index_ok fs' /\
  forall id, is_Some (items fs_empty !! id) -> is_Some (items fs' !! id).
Proof.
  split; [exact fs_empty_index_ok |].
  apply (write_preserves_index_ok (rt := demo_runtime)).
  exact fs_empty_index_ok.
Defined.

Example generate_memory_id_demo :
  generate_memory_id demo_rnd = "mem_dkryFMT07els".
Proof. vm_compute. reflexivity. Qed.

Example write_demo :
  MemoryWriteTool_execute (rt := demo_runtime) demo_rnd demo_now fs_empty
    [("content", JStr "Hello world"); ("tags", JArr [JStr "Greeting"])]
  = ({| items := {[ "mem_dkryFMT07els" :=
                     [("id", JStr "mem_dkryFMT07els");
                      ("created_at", JStr "2024-01-01T00:00:00Z");
                      ("updated_at", JStr "2024-01-01T00:00:00Z");
                      ("content", JStr "Hello world");
                      ("keywords", JArr [JStr "Greeting"])] ]};
        index := Some [("greeting", ["mem_dkryFMT07els"]);
                       ("hello", ["mem_dkryFMT07els"]);
                       ("world", ["mem_dkryFMT07els"])];
        index_tmp := None |},
     Return (JObj [("memory_id", JStr "mem_dkryFMT07els");
                   ("success", JBool true)])).
Proof. vm_compute. reflexivity. Qed.

(** A write whose tags are not strings raises after the record file is
    written and before the index is: the record is stored, not indexed. *)
Example write_bad_tags :
  MemoryWriteTool_execute (rt := demo_runtime) demo_rnd demo_now fs_empty
    [("content", JStr "Hello world"); ("tags", JArr [JInt 1])]
  = ({| items := {[ "mem_dkryFMT07els" :=
                     [("id", JStr "mem_dkryFMT07els");
                      ("created_at", JStr "2024-01-01T00:00:00Z");
                      ("updated_at", JStr "2024-01-01T00:00:00Z");
                      ("content", JStr "Hello world");
                      ("keywords", JArr [JInt 1])] ]};
        index := None; index_tmp := None |},
     Raise (AttributeError "'int' object has no attribute 'lower'")).
Proof. vm_compute. reflexivity. Qed.

(** [test_tools_registered]: the registry after [MCPServer.__init__]. *)
Lemma server_tools `{rt : PyRuntime} entropy clock :
  tools (MCPServer_init entropy clock)
  = [("memory.write", MemoryWriteTool entropy clock);
     ("memory.search", MemorySearchTool);
     ("memory.get", MemoryGetTool)].
Proof. reflexivity. Qed.

(** Through the server, no tool breaks the invariant or removes a record
    file: memory.search and memory.get leave the data directory as it
    is. *)
Lemma server_tools_preserve `{rt : PyRuntime} entropy clock name tool
    (w : World) (kwargs : dict json) :
  dict_get name (tools (MCPServer_init entropy clock)) = Some tool ->
  index_ok w.1 ->
  let w' := (execute tool w kwargs).1 in
  index_ok w'.1 /\
  forall id, is_Some (items w.1 !! id) -> is_Some (items w'.1 !! id).
Proof.
  rewrite server_tools. intros Htool Hok. destruct w as [fs n].
  cbn [dict_get] in Htool.
  repeat case_decide; simplify_eq; cbn [execute MemorySearchTool
    MemoryGetTool MemoryWriteTool fst snd]; try done.
  pose proof (write_body_ok (entropy n) (clock n) fs
                (dict_get_default "content" JNull kwargs)
                (dict_get_default "tags" JNull kwargs) Hok) as Hbody.
  unfold MemoryWriteTool_execute.
  destruct (bind_kwargs _ _ _ _) as [[]|e]; cbn [fst snd]; [| done].
  by destruct (MemoryWriteTool_body _ _ _ _ _).
Qed.

(** ** Writing and reading back *)

(** [tags or []] for a list of tags. *)
Lemma tags_or_empty (tags : list string) :
  (if truthy (JArr (JStr <$> tags)) then JArr (JStr <$> tags) else JArr [])
  = JArr (JStr <$> tags).
Proof. by destruct tags. Qed.

Lemma truthy_str s : s ≠ "" -> truthy (JStr s) = true.
Proof. intros Hs. simpl. by rewrite bool_decide_eq_false_2. Qed.

Lemma generate_memory_id_nonempty rnd : generate_memory_id rnd ≠ "".
Proof. done. Qed.

Lemma write_body_returns `{rt : PyRuntime} rnd now fs content tags :
  content ≠ "" ->
  exists keywords,
    _extract_keywords (written_item rnd now content tags) = Return keywords /\
    MemoryWriteTool_body rnd now fs (JStr content) (JArr (JStr <$> tags))
    = ({| items := <[generate_memory_id rnd :=
                       item_to_dict (written_item rnd now content tags)]>
                     (items fs);
          index := Some (foldl (index_add (generate_memory_id rnd))
                           (default [] (index fs)) keywords);
          index_tmp := None |},
       Return (JObj [("memory_id", JStr (generate_memory_id rnd));
                     ("success", JBool true)])).
Proof.
  intros Hc.
  pose proof (extract_keywords_returns (written_item rnd now content tags)
                tags content eq_refl eq_refl) as Hk.
  eexists. split; [exact Hk |].
  unfold MemoryWriteTool_body. rewrite truthy_str by done. simpl negb.
  cbv iota. rewrite tags_or_empty.
  fold (written_item rnd now content tags).
  unfold _update_keyword_index. by rewrite Hk.
Qed.

Lemma get_stored `{rt : PyRuntime} fs memory_id item :
  memory_id ≠ "" ->
  items fs !! memory_id = Some item ->
  MemoryGetTool_execute fs [("memory_id", JStr memory_id)]
  = Return (JObj [("memory", JObj item)]).
Proof.
  intros Hid Hitem.
  change (MemoryGetTool_execute fs [("memory_id", JStr memory_id)])
    with (MemoryGetTool_body fs (JStr memory_id)).
  unfold MemoryGetTool_body. rewrite truthy_str by done. simpl.
  by rewrite Hitem.
Qed.

(** C6. Writing a record with a non-empty content string and a list of
    tags, then getting it by the returned memory_id, yields a record whose
    content is the content written and whose keywords are the tags
    written. *)
Theorem write_get_roundtrip `{rt : PyRuntime} (rnd : nat -> nat) (now : string)
    (fs : FS) (content : string) (tags : list string) :
  content ≠ "" ->
  exists fs' memory_id record,
    MemoryWriteTool_execute rnd now fs
      [("content", JStr content); ("tags", JArr (JStr <$> tags))]
    = (fs', Return (JObj [("memory_id", JStr memory_id);
                          ("success", JBool true)])) /\
    MemoryGetTool_execute fs' [("memory_id", JStr memory_id)]
    = Return (JObj [("memory", JObj record)]) /\
    dict_get "content" record = Some (JStr content) /\
    dict_get "keywords" record = Some (JArr (JStr <$> tags)).
Proof.
  intros Hc.
  destruct (write_body_returns rnd now fs content tags Hc)
    as (keywords & _ & Hw).
  eexists _, _, _. split.
  - unfold MemoryWriteTool_execute.
    change (bind_kwargs _ _ _ _) with (Return ()). cbv iota.
    exact Hw.
  - split.
    + apply get_stored; [apply generate_memory_id_nonempty |].
      simpl. by rewrite lookup_insert_eq.
    + split; reflexivity.
Qed.

Lemma write_get_roundtrip_witness :
  "Hello world" ≠ "" /\
  exists fs' memory_id record,
    MemoryWriteTool_execute (rt := demo_runtime) demo_rnd demo_now fs_empty
      [("content", JStr "Hello world");
       ("tags", JArr (JStr <$> ["Greeting"]))]
    = (fs', Return (JObj [("memory_id", JStr memory_id);
                          ("success", JBool true)])) /\
    MemoryGetTool_execute (rt := demo_runtime) fs'
      [("memory_id", JStr memory_id)]
    = Return (JObj [("memory", JObj record)]) /\
    dict_get "content" record = Some (JStr "Hello world") /\
    dict_get "keywords" record = Some (JArr (JStr <$> ["Greeting"])).
Proof.
  split; [discriminate |].
  apply (write_get_roundtrip (rt := demo_runtime)). discriminate.
Defined.

(** ** memory.get *)



Example memory_get_raises :
  MemoryGetTool_execute (rt := demo_runtime) demo_fs (get_kwargs (Some ""))
  = Raise (ValueError "memory_id is required") /\
  MemoryGetTool_execute (rt := demo_runtime) demo_fs (get_kwargs None)
  = Raise (TypeError
      "MemoryGetTool.execute() missing 1 required positional argument: 'memory_id'").
Proof. split; reflexivity. Qed.

(** ** memory.search *)

Lemma matching_ids_from q (index : dict (list string)) acc :
  let step := fun matching (entry : string * list string) =>
    let '(keyword, ids) := entry in
    if contains q keyword
    then foldl (fun acc item_id => set_add item_id acc) matching ids
    else matching in
  (NoDup acc -> NoDup (foldl step acc index)) /\
  forall id, id ∈ foldl step acc index
    <-> id ∈ acc \/ exists keyword ids,
          (keyword, ids) ∈ index /\ contains q keyword = true /\ id ∈ ids.
Proof.
  intros step. revert acc.
  induction index as [|[kw ids] index IH]; intros acc.
  - split; [done |]. intros id. split; [by left |].
    intros [H | (k & i & H & _)]; [done | by apply elem_of_nil in H].
  - change (foldl step acc ((kw, ids) :: index))
      with (foldl step (step acc (kw, ids)) index).
    destruct (IH (step acc (kw, ids))) as [IHnd IHin].
    destruct (foldl_set_add (fun acc item_id => set_add item_id acc) Some
                ids acc) as [Hnd Hin]; [done |].
    split.
    + intros Hacc. apply IHnd. unfold step.
      destruct (contains q kw); [by apply Hnd | done].
    + intros id. rewrite IHin. unfold step at 1.
      destruct (contains q kw) eqn:Hc.
      * rewrite Hin, (omap_Some_fmap (fun x : string => x)), list_fmap_id.
        split.
        -- intros [[H|H] | (k & i & H & Hk & Hi)]; [by left | | ].
           ++ right. exists kw, ids. split_and!; [left | done | done].
           ++ right. exists k, i. split_and!; [by right | done | done].
        -- intros [H | (k & i & H & Hk & Hi)]; [by left; left |].
           apply elem_of_cons in H as [[= -> ->] | H].
           ++ left. by right.
           ++ right. by exists k, i.
      * split.
        -- intros [H | (k & i & H & Hk & Hi)]; [by left |].
           right. exists k, i. split_and!; [by right | done | done].
        -- intros [H | (k & i & H & Hk & Hi)]; [by left |].
           apply elem_of_cons in H as [[= -> ->] | H]; [congruence |].
           right. by exists k, i.
Qed.

(** The identifiers collected by the search are those listed under a
    keyword that contains the query, each once. *)
Lemma matching_ids_spec q (index : dict (list string)) :
  NoDup (matching_ids q index) /\
  forall id, id ∈ matching_ids q index
    <-> exists keyword ids,
          (keyword, ids) ∈ index /\ contains q keyword = true /\ id ∈ ids.
Proof.
  destruct (matching_ids_from q index []) as [Hnd Hin].
  split; [apply Hnd, NoDup_nil_2 |].
  intros id. unfold matching_ids. rewrite Hin, elem_of_nil. tauto.
Qed.

Lemma load_results_ok fs ids :
  records_ok fs ->
  load_results fs ids = Return (search_result <$> load_existing fs ids).
Proof.
  intros Hok. induction ids as [|id ids IH]; [done |].
  cbn [load_results]. unfold _load_item, load_existing. cbn [omap list_omap].
  destruct (items fs !! id) as [item|] eqn:Hitem; [| exact IH].
  destruct (Hok id item Hitem) as [[v Hv] [c Hc]].
  assert (truthy (JObj item) = true) as ->.
  { destruct item; [done | by simpl]. }
  unfold subscript. rewrite Hv, Hc. cbn. rewrite IH. cbn.
  unfold search_result, dict_get_default. by rewrite Hv, Hc.
Qed.

Lemma py_slice_to_nonneg {A} (l : list A) k :
  0 <= k -> py_slice_to l (JInt k) = Return (take (Z.to_nat k) l).
Proof.
  intros Hk. unfold py_slice_to, slice_stop.
  destruct (Z.ltb_spec k 0); [lia |]. f_equal.
  destruct (Z.min_spec k (Z.of_nat (length l))) as [[Hlt ->]|[Hge ->]];
    [done |].
  rewrite Nat2Z.id, firstn_all. symmetry. apply take_ge. lia.
Qed.

Lemma py_slice_to_neg {A} (l : list A) k :
  k < 0 ->
  py_slice_to l (JInt k) = Return (take (length l - Z.to_nat (- k)) l).
Proof.
  intros Hk. unfold py_slice_to, slice_stop.
  destruct (Z.ltb_spec k 0); [| lia]. do 2 f_equal. lia.
Qed.

(** A query that is neither empty nor all whitespace gets past the guard. *)
Lemma search_body_nonblank `{rt : PyRuntime} fs query top_k :
  all_space query = false ->
  MemorySearchTool_body fs (JStr query) top_k
  = (selected ← py_slice_to
       (set_iter (matching_ids (lower query) (default [] (index fs)))) top_k;
     results ← load_results fs selected;
     mret (search_response results)).
Proof.
  intros Hq. unfold MemorySearchTool_body.
  assert (query ≠ "") as Hne by (by intros ->).
  rewrite truthy_str by done. cbn [negb py_strip mbind outcome_bind].
  rewrite decide_False; [done |].
  rewrite strip_empty. congruence.
Qed.

Lemma search_body_blank `{rt : PyRuntime} fs query top_k :
  all_space query = true ->
  MemorySearchTool_body fs (JStr query) top_k = Return (search_response []).
Proof.
  intros Hq. unfold MemorySearchTool_body.
  destruct (truthy (JStr query)); [| done]. cbn [negb py_strip mbind outcome_bind].
  rewrite decide_True; [done |]. by apply strip_empty.
Qed.

Lemma search_execute_top_k `{rt : PyRuntime} fs (query : string) (top_k : json) :
  MemorySearchTool_execute fs [("query", JStr query); ("top_k", top_k)]
  = MemorySearchTool_body fs (JStr query) top_k.
Proof. reflexivity. Qed.



Lemma demo_fs_records_ok : records_ok demo_fs.
Proof.
  intros id item Hitem. unfold demo_fs in Hitem. simpl in Hitem.
  apply lookup_singleton_Some in Hitem as [_ <-]. split; by eexists.
Qed.


(** C10, as amended. For a query that is neither empty nor whitespace-only:
    with top_k = 0 memory.search returns no results and count 0; with a
    negative top_k it loads all but the last |top_k| of the matching
    identifiers, in the order the set is iterated, as a list slice does,
    and neither raises nor returns them all. *)
Theorem search_top_k_not_positive `{rt : PyRuntime} (fs : FS) (query : string)
    (top_k : Z) :
  all_space query = false ->
  let ids :=
    set_iter (matching_ids (lower query) (default [] (index fs))) in
  let call k :=
    MemorySearchTool_execute fs [("query", JStr query); ("top_k", JInt k)] in
  call 0 = Return (JObj [("results", JArr []); ("count", JInt 0)]) /\
  (top_k < 0 -> records_ok fs ->
   let results :=
     search_result
       <$> load_existing fs (take (length ids - Z.to_nat (- top_k)) ids) in
   call top_k = Return (JObj [("results", JArr results);
                              ("count", JInt (Z.of_nat (length results)))])).
Proof.
  intros Hq ids call. split.
  - unfold call. rewrite search_execute_top_k, search_body_nonblank by done.
    rewrite py_slice_to_nonneg by done. done.
  - intros Hk Hok results. unfold call.
    rewrite search_execute_top_k, search_body_nonblank by done.
    fold ids. rewrite py_slice_to_neg by done.
    cbn [mbind outcome_bind]. rewrite load_results_ok by done. done.
Qed.

Lemma search_top_k_not_positive_witness :
  MemorySearchTool_execute (rt := demo_runtime) demo_fs
    [("query", JStr "o"); ("top_k", JInt 0)]
  = Return (JObj [("results", JArr []); ("count", JInt 0)]) /\
  MemorySearchTool_execute (rt := demo_runtime) demo_fs
    [("query", JStr "o"); ("top_k", JInt (-1))]
  = Return (JObj [("results", JArr [search_result demo_record]);
                  ("count", JInt 1)]).
Proof.
  pose proof (search_top_k_not_positive (rt := demo_runtime) demo_fs "o" (-1)
                eq_refl) as [Hzero Hneg].
  split; [exact Hzero |].
  apply Hneg; [lia | exact demo_fs_records_ok].
Defined.

Lemma update_keyword_index_items `{rt : PyRuntime} fs item :
  items (_update_keyword_index fs item).1 = items fs.
Proof.
  unfold _update_keyword_index. by destruct (_extract_keywords item).
Qed.

(** memory.write stores records only. *)
Lemma write_preserves_records_ok `{rt : PyRuntime} rnd now fs kwargs :
  records_ok fs ->
  records_ok (MemoryWriteTool_execute rnd now fs kwargs).1.
Proof.
  intros Hok. unfold MemoryWriteTool_execute.
  destruct (bind_kwargs _ _ _ _); [| done].
  unfold MemoryWriteTool_body.
  destruct (truthy _); simpl; [| done].
  match goal with
  | |- context [_update_keyword_index ?fs1 ?item] =>
      pose proof (update_keyword_index_items fs1 item) as Hitems;
      destruct (_update_keyword_index fs1 item) as [fs2 [u|e]]
  end; simpl in *.
  all: intros id item; rewrite Hitems;
    intros [[_ <-] | [_ Hitem]]%lookup_insert_Some;
    [split; by eexists | by apply (Hok id)].
Qed.

Lemma fs_empty_records_ok : records_ok fs_empty.
Proof.
  intros id item Hitem. simpl in Hitem. by rewrite lookup_empty in Hitem.
Qed.

(** Both invariants hold in every state that writes lead to. *)
Lemma reachable_ok `{rt : PyRuntime} fs :
  reachable fs -> records_ok fs /\ index_ok fs.
Proof.
  induction 1 as [|rnd now fs kwargs Hreach [Hrec Hidx]].
  - split; [exact fs_empty_records_ok | exact fs_empty_index_ok].
  - split; [by apply write_preserves_records_ok |].
    unfold MemoryWriteTool_execute.
    destruct (bind_kwargs _ _ _ _); [| done].
    by apply write_body_ok.
Qed.

Example spaced_fs_index :
  index spaced_fs = Some [("a b", ["mem_abcdefghijkl"; "mem_bcdefghijklm"])].
Proof. vm_compute. reflexivity. Qed.

(** C10 as stated fails for a query that is not empty but all whitespace:
    two identifiers match, and the slice would keep the first, but the
    guard on the query returns no results before top_k is looked at. *)
Lemma search_negative_top_k_blank_query :
  let call :=
    MemorySearchTool_execute (rt := demo_runtime) spaced_fs
      [("query", JStr " "); ("top_k", JInt (-1))] in
  let ids :=
    set_iter (PyRuntime := demo_runtime)
      (matching_ids (lower " ") (default [] (index spaced_fs))) in
  let results :=
    search_result
      <$> load_existing spaced_fs (take (length ids - Z.to_nat (- -1)) ids) in
  " " ≠ "" /\ -1 < 0 /\ records_ok spaced_fs /\
  ids = ["mem_abcdefghijkl"; "mem_bcdefghijklm"] /\
  length results = 1%nat /\
  call = Return (JObj [("results", JArr []); ("count", JInt 0)]) /\
  call ≠ Return (JObj [("results", JArr results);
                       ("count", JInt (Z.of_nat (length results)))]).
Proof.
  split_and!.
  - discriminate.
  - lia.
  - do 2 apply write_preserves_records_ok. exact fs_empty_records_ok.
  - vm_compute. reflexivity.
  - vm_compute. reflexivity.
  - vm_compute. reflexivity.
  - vm_compute. discriminate.
Qed.

(** ** The dispatcher *)

(** A request object is always answered. *)
Lemma handle_request_object `{rt : PyRuntime} {W : Type} (self : MCPProtocol W)
    (w : W) (request : dict json) :
  let request_id := dict_get_default "id" JNull request in
  let method := dict_get_default "method" JNull request in
  let params := dict_get_default "params" (JObj []) request in
  handle_request self w (JObj request)
  = Return ((dispatch self w method params).1,
            match (dispatch self w method params).2 with
            | Return result => _make_response request_id result
            | Raise (MCPError code message data) =>
                _make_error_response request_id code message data
            | Raise e =>
                _make_error_response request_id INTERNAL_ERROR (str_exn e)
                  JNull
            end).
Proof.
  simpl. unfold handle_request. cbn [py_get mbind outcome_bind].
  by destruct (dispatch _ _ _ _) as [[self' w'] result].
Qed.

(** Only a request that is not an object makes [handle_request] raise. *)
Lemma handle_request_not_object `{rt : PyRuntime} {W : Type}
    (self : MCPProtocol W) (w : W) (request : json) :
  (forall d, request ≠ JObj d) ->
  handle_request self w request = no_attribute request "get".
Proof. intros Hd. destruct request; try done. by destruct (Hd d). Qed.

Lemma strip_nonempty line : strip line ≠ "" -> line ≠ "".
Proof. by intros Hl ->. Qed.

(** One turn of the loop on a line that holds a request the dispatcher
    answers. *)
Lemma run_loop_request `{rt : PyRuntime} {W : Type} (self self' : MCPProtocol W)
    (w w' : W) (line : string) (stdin : list string) (request response : json) :
  _running self = true ->
  strip line ≠ "" ->
  json_loads (strip line) = inl request ->
  handle_request self w request = Return (self', w', response) ->
  run_loop self w (line :: stdin)
  = (let '(self'', w'', out) := run_loop self' w' stdin in
     (self'', w'', (json_dumps response +:+ newline) :: out)).
Proof.
  intros Hrun Hline Hparse Hhandle. cbn [run_loop]. rewrite Hrun. cbn [negb].
  rewrite (decide_False (P := line = "")) by by apply strip_nonempty.
  rewrite (decide_False (P := strip line = "")) by done.
  by rewrite Hparse, Hhandle.
Qed.




(** C9. initialize does not fail and is idempotent: from any state of the
    dispatcher and with any params, a first and a second call both leave
    initialized set, change nothing else, and return the same result, which
    holds the protocol version, a capability object and the server's name
    and version; a request for it is answered with that result. *)
Theorem initialize_idempotent `{rt : PyRuntime} {W : Type} (self : MCPProtocol W)
    (w : W) (params1 params2 request_id : json) :
  let '(self1, result1) := _handle_initialize self params1 in
  let '(self2, result2) := _handle_initialize self1 params2 in
  initialized self1 = true /\ initialized self2 = true /\
  self2 = self1 /\
  tools self1 = tools self /\ _running self1 = _running self /\
  result1 = initialize_result /\ result2 = result1 /\
  handle_request self w
    (JObj [("jsonrpc", JStr "2.0"); ("id", request_id);
           ("method", JStr "initialize"); ("params", params1)])
  = Return (self1, w, _make_response request_id initialize_result) /\
  handle_request self1 w
    (JObj [("jsonrpc", JStr "2.0"); ("id", request_id);
           ("method", JStr "initialize"); ("params", params2)])
  = Return (self1, w, _make_response request_id initialize_result).
Proof.
  unfold _handle_initialize. split_and!.
  - (* the flag after the first call *) reflexivity.
  - (* and after the second *) reflexivity.
  - (* the second call changes nothing *) reflexivity.
  - reflexivity.
  - reflexivity.
  - (* the result is the constant *) reflexivity.
  - reflexivity.
  - (* a request reaches the handler and is answered *)
    unfold handle_request, dispatch. reflexivity.
  - unfold handle_request, dispatch. reflexivity.
Qed.




(** ** The read loop *)



(** A line that holds JSON other than an object ends the loop: the
    [AttributeError] is raised before the [try] of [handle_request] and
    only the loop's last handler sees it. *)
Example run_loop_not_object :
  run (rt := demo_runtime) demo_server demo_world
    ["[]" +:+ newline; "{}" +:+ newline]
  = ({| tools := tools demo_server; initialized := false; _running := true |},
     demo_world, []).
Proof. reflexivity. Qed.

(** ** The repository's tests, run on the embedding *)

(** [test_search_finds_item] *)
Example test_search_finds_item :
  let fs :=
    (MemoryWriteTool_execute (rt := demo_runtime) demo_rnd demo_now fs_empty
       [("content", JStr "Hello world")]).1 in
  MemorySearchTool_execute (rt := demo_runtime) fs [("query", JStr "hello")]
  = Return (JObj [("results",
                   JArr [JObj [("id", JStr "mem_dkryFMT07els");
                               ("content", JStr "Hello world");
                               ("keywords", JArr [])]]);
                  ("count", JInt 1)]).
Proof. vm_compute. reflexivity. Qed.

(** [test_get_nonexistent] *)
Example test_get_nonexistent :
  MemoryGetTool_execute (rt := demo_runtime) fs_empty
    [("memory_id", JStr "mem_nonexistent")]
  = Return (JObj [("memory", JNull)]).
Proof. reflexivity. Qed.

(** [test_handle_unknown_method] *)
Example test_handle_unknown_method :
  handle_request (rt := demo_runtime) demo_server demo_world
    (JObj [("jsonrpc", JStr "2.0"); ("id", JInt 4);
           ("method", JStr "unknown/method"); ("params", JObj [])])
  = Return (demo_server, demo_world,
            JObj [("jsonrpc", JStr "2.0"); ("id", JInt 4);
                  ("error",
                   JObj [("code", JInt METHOD_NOT_FOUND);
                         ("message",
                          JStr "Unknown method: unknown/method")])]).
Proof. reflexivity. Qed.

(** [test_tool_not_found] *)
Example test_tool_not_found :
  handle_request (rt := demo_runtime) demo_server demo_world
    (JObj [("jsonrpc", JStr "2.0"); ("id", JInt 5);
           ("method", JStr "tools/call");
           ("params", JObj [("name", JStr "nonexistent")])])
  = Return (demo_server, demo_world,
            JObj [("jsonrpc", JStr "2.0"); ("id", JInt 5);
                  ("error",
                   JObj [("code", JInt METHOD_NOT_FOUND);
                         ("message", JStr "Tool not found: nonexistent")])]).
Proof. reflexivity. Qed.

(** [test_tools_registered] *)
Example test_tools_registered :
  (fun entry => entry.1) <$> tools demo_server
  = ["memory.write"; "memory.search"; "memory.get"].
Proof. reflexivity. Qed.

(** A shutdown request is answered and ends the loop. *)
Example run_shutdown :
  let shutdown_loads line :=
    if decide (line = "bye")
    then inl (JObj [("id", JInt 1); ("method", JStr "shutdown")])
    else demo_loads line in
  let rt := {| py_repr := py_repr (PyRuntime := demo_runtime);
               json_dumps := json_dumps (PyRuntime := demo_runtime);
               json_loads := shutdown_loads;
               set_iter := set_iter (PyRuntime := demo_runtime);
               set_iter_perm := set_iter_perm (PyRuntime := demo_runtime) |} in
  run (rt := rt) demo_server demo_world
    ["bye" +:+ newline; "{}" +:+ newline]
  = ({| tools := tools demo_server; initialized := false; _running := false |},
     demo_world, ["<dict>" +:+ newline]).
Proof. reflexivity. Qed.

(** * Further properties *)

(** ** Identifiers *)

Lemma secrets_choice_alnum r : ascii_alnum (secrets_choice r) = true.
Proof.
  unfold secrets_choice.
  assert (r mod String.length chars < 62)%nat as Hlt.
  { change (String.length chars) with 62%nat. apply Nat.mod_upper_bound.
    done. }
  revert Hlt. generalize (r mod String.length chars)%nat as n. intros n Hlt.
  do 62 (destruct n as [|n]; [reflexivity |]). lia.
Qed.

(** X1. Every generated identifier is [mem_] followed by exactly twelve
    ASCII letters or digits, sixteen characters in all, whatever the
    entropy source draws. *)
Theorem generate_memory_id_format (rnd : nat -> nat) :
  exists random_part,
    generate_memory_id rnd = "mem_" +:+ string_of_list_ascii random_part /\
    length random_part = 12%nat /\
    Forall (fun c => ascii_alnum c = true) random_part /\
    String.length (generate_memory_id rnd) = 16%nat.
Proof.
  exists ((fun i => secrets_choice (rnd i)) <$> seq 0 12). split_and!.
  - reflexivity.
  - by rewrite length_fmap, length_seq.
  - apply Forall_fmap, Forall_forall. intros i _. apply secrets_choice_alnum.
  - reflexivity.
Qed.

(** ** Dicts, continued *)

Lemma dict_mem_true {V} k (d : dict V) :
  dict_mem k d = true <-> is_Some (dict_get k d).
Proof.
  unfold dict_mem. destruct (dict_get k d) as [v|]; split; intros H;
    try done; try (by eexists); by destruct H.
Qed.

Lemma dict_get_None_keys {V} k (d : dict V) :
  dict_get k d = None <-> k ∉ d.*1.
Proof.
  induction d as [|[k' v'] d IH]; simpl.
  - split; [intros _; apply not_elem_of_nil | done].
  - rewrite not_elem_of_cons. destruct (decide (k' = k)) as [->|Hne].
    + split; [done | by intros [? _]].
    + rewrite IH. split; [by split | by intros [_ ?]].
Qed.

Lemma dict_get_set_eq {V} k (v : V) d : dict_get k (dict_set k v d) = Some v.
Proof.
  induction d as [|[k' v'] d IH]; simpl.
  - by rewrite decide_True.
  - destruct (decide (k' = k)) as [->|Hne]; simpl.
    + by rewrite decide_True.
    + by rewrite decide_False.
Qed.

Lemma dict_get_set_ne {V} k k' (v : V) d :
  k ≠ k' -> dict_get k' (dict_set k v d) = dict_get k' d.
Proof.
  intros Hne. induction d as [|[k0 v0] d IH]; simpl.
  - by rewrite decide_False.
  - destruct (decide (k0 = k)) as [->|Hne0]; simpl.
    + by rewrite !decide_False.
    + by rewrite IH.
Qed.

Lemma dict_set_keys {V} k (v : V) d :
  (dict_set k v d).*1 = if dict_mem k d then d.*1 else d.*1 ++ [k].
Proof.
  unfold dict_mem. induction d as [|[k' v'] d IH]; [done |].
  cbn [dict_set dict_get].
  destruct (decide (k' = k)) as [->|Hne]; [done |].
  rewrite !fmap_cons, IH. by destruct (dict_get k d).
Qed.

Lemma dict_set_keys_NoDup {V} k (v : V) d :
  NoDup d.*1 -> NoDup (dict_set k v d).*1.
Proof.
  intros Hd. rewrite dict_set_keys. destruct (dict_mem k d) eqn:Hm; [done |].
  apply NoDup_app. split_and!; [done | | apply NoDup_singleton].
  intros x Hx Hxk%list_elem_of_singleton. subst x.
  apply (dict_get_None_keys k d); [| done].
  unfold dict_mem in Hm. by destruct (dict_get k d).
Qed.

Lemma dict_get_del_ne {V} k k' (d : dict V) :
  k ≠ k' -> dict_get k' (dict_del k d) = dict_get k' d.
Proof.
  intros Hne. induction d as [|[k0 v0] d IH]; simpl; [done |].
  destruct (decide (k0 = k)) as [->|Hne0]; simpl.
  - by rewrite decide_False.
  - by rewrite IH.
Qed.

Lemma dict_del_keys_sublist {V} k (d : dict V) : (dict_del k d).*1 `sublist_of` d.*1.
Proof.
  induction d as [|[k0 v0] d IH]; simpl; [done |].
  destruct (decide (k0 = k)); simpl.
  - by apply sublist_cons.
  - by apply sublist_skip.
Qed.

Lemma dict_get_del_eq {V} k (d : dict V) :
  NoDup d.*1 -> dict_get k (dict_del k d) = None.
Proof.
  induction d as [|[k0 v0] d IH]; simpl; [done |].
  intros [Hk0 Hd]%NoDup_cons. destruct (decide (k0 = k)) as [->|Hne]; simpl.
  - by apply dict_get_None_keys.
  - rewrite decide_False by done. by apply IH.
Qed.

Lemma dict_del_absent {V} k (d : dict V) :
  dict_get k d = None -> dict_del k d = d.
Proof.
  induction d as [|[k0 v0] d IH]; simpl; [done |].
  destruct (decide (k0 = k)); [done |]. intros Hd. by rewrite IH.
Qed.

Lemma dict_del_set_fresh {V} k (v : V) d :
  dict_get k d = None -> dict_del k (dict_set k v d) = d.
Proof.
  induction d as [|[k0 v0] d IH]; simpl.
  - by rewrite decide_True.
  - destruct (decide (k0 = k)) as [->|Hne]; [done |]. simpl.
    rewrite decide_False by done. intros Hd. by rewrite IH.
Qed.

(** ** The keyword index, continued *)

Lemma set_add_idemp x s : set_add x (set_add x s) = set_add x s.
Proof.
  unfold set_add. destruct (bool_decide (x ∈ s)) eqn:Hx.
  - by rewrite Hx.
  - rewrite bool_decide_eq_true_2; [done |].
    apply elem_of_app. right. by apply list_elem_of_singleton.
Qed.

Lemma index_add_get_eq memory_id index keyword :
  dict_get keyword (index_add memory_id index keyword)
  = Some (set_add memory_id (dict_get_default keyword [] index)).
Proof.
  unfold index_add, dict_get_default, set_add.
  destruct (dict_mem keyword index) eqn:Hm.
  - apply dict_mem_true in Hm as [ids Hids]. rewrite Hids. simpl.
    case_bool_decide; [done |]. apply dict_get_set_eq.
  - assert (dict_get keyword index = None) as Hnone.
    { unfold dict_mem in Hm. by destruct (dict_get keyword index). }
    rewrite Hnone, dict_get_set_eq. simpl. apply dict_get_set_eq.
Qed.

Lemma index_add_get_ne memory_id index keyword k :
  keyword ≠ k ->
  dict_get k (index_add memory_id index keyword) = dict_get k index.
Proof.
  intros Hne. unfold index_add.
  assert (dict_get k (if dict_mem keyword index then index
                      else dict_set keyword [] index) = dict_get k index)
    as Hsame.
  { destruct (dict_mem keyword index); [done |]. by apply dict_get_set_ne. }
  case_bool_decide; [done |]. by rewrite dict_get_set_ne.
Qed.

Lemma index_add_keys_NoDup memory_id index keyword :
  NoDup index.*1 -> NoDup (index_add memory_id index keyword).*1.
Proof.
  intros Hidx. unfold index_add.
  assert (NoDup (if dict_mem keyword index then index
                 else dict_set keyword [] index).*1) as H1.
  { destruct (dict_mem keyword index); [done |]. by apply dict_set_keys_NoDup. }
  case_bool_decide; [done |]. by apply dict_set_keys_NoDup.
Qed.

(** Adding an identifier where it is listed already changes nothing. *)
Lemma index_add_present memory_id index keyword ids :
  dict_get keyword index = Some ids -> memory_id ∈ ids ->
  index_add memory_id index keyword = index.
Proof.
  intros Hids Hin. unfold index_add, dict_mem, dict_get_default.
  rewrite Hids. simpl. rewrite Hids. simpl. by case_bool_decide.
Qed.

(** The id-lists after the loop of [_update_keyword_index]. *)
Lemma index_fold_get memory_id keywords index k :
  dict_get k (foldl (index_add memory_id) index keywords)
  = if decide (k ∈ keywords)
    then Some (set_add memory_id (dict_get_default k [] index))
    else dict_get k index.
Proof.
  revert index. induction keywords as [|kw kws IH]; intros index.
  - cbn [foldl]. rewrite decide_False; [done | apply not_elem_of_nil].
  - cbn [foldl]. rewrite IH. destruct (decide (kw = k)) as [->|Hne].
    + rewrite (decide_True (P := k ∈ k :: kws)) by left.
      assert (dict_get_default k [] (index_add memory_id index k)
              = set_add memory_id (dict_get_default k [] index)) as ->.
      { unfold dict_get_default. by rewrite index_add_get_eq. }
      rewrite set_add_idemp, index_add_get_eq.
      by destruct (decide (k ∈ kws)).
    + assert (dict_get_default k [] (index_add memory_id index kw)
              = dict_get_default k [] index) as ->.
      { unfold dict_get_default. by rewrite index_add_get_ne. }
      rewrite index_add_get_ne by done.
      destruct (decide (k ∈ kws)) as [Hin|Hnin].
      * by rewrite decide_True by by right.
      * rewrite decide_False; [done |].
        intros [Heq|?]%elem_of_cons; [by subst | done].
Qed.

Lemma index_fold_keys_NoDup memory_id keywords index :
  NoDup index.*1 -> NoDup (foldl (index_add memory_id) index keywords).*1.
Proof.
  revert index. induction keywords as [|kw kws IH]; intros index Hidx;
    [done |].
  cbn [foldl]. by apply IH, index_add_keys_NoDup.
Qed.

Lemma index_fold_present memory_id keywords index :
  (forall kw, kw ∈ keywords ->
     exists ids, dict_get kw index = Some ids /\ memory_id ∈ ids) ->
  foldl (index_add memory_id) index keywords = index.
Proof.
  induction keywords as [|kw kws IH]; intros Hall; [done |].
  cbn [foldl]. destruct (Hall kw) as (ids & Hids & Hin); [left |].
  rewrite (index_add_present _ _ _ ids) by done.
  apply IH. intros k Hk. apply Hall. by right.
Qed.

(** ** memory.write, case by case *)

Lemma write_body_cases `{rt : PyRuntime} rnd now fs content tags :
  let item := new_item rnd now content tags in
  MemoryWriteTool_body rnd now fs content tags
  = if truthy content then
      match _extract_keywords item with
      | Return keywords =>
          ({| items := items (with_record fs item);
              index := Some (foldl (index_add (item_id item))
                               (default [] (index fs)) keywords);
              index_tmp := None |},
           Return (JObj [("memory_id", JStr (item_id item));
                         ("success", JBool true)]))
      | Raise e => (with_record fs item, Raise e)
      end
    else (fs, Raise (ValueError "content is required")).
Proof.
  intros item. unfold MemoryWriteTool_body.
  destruct (truthy content); [| done]. cbn [negb].
  fold (new_item rnd now content tags). fold item.
  unfold _update_keyword_index.
  change ({| items := <[generate_memory_id rnd := item_to_dict item]> (items fs);
             index := index fs; index_tmp := index_tmp fs |})
    with (with_record fs item).
  by destruct (_extract_keywords item).
Qed.

(** What a call of memory.write leaves, whatever it was given: nothing
    changed, or the record file added and the index as it was, or the
    record file added and the index updated. *)
Lemma write_execute_cases `{rt : PyRuntime} rnd now fs kwargs :
  let content := dict_get_default "content" JNull kwargs in
  let tags := dict_get_default "tags" JNull kwargs in
  let item := new_item rnd now content tags in
  let '(fs', result) := MemoryWriteTool_execute rnd now fs kwargs in
  (fs' = fs /\ exists e, result = Raise e) \/
  (truthy content = true /\ fs' = with_record fs item /\
   exists e, result = Raise e /\ _extract_keywords item = Raise e) \/
  (truthy content = true /\
   exists keywords,
     _extract_keywords item = Return keywords /\
     fs' = {| items := items (with_record fs item);
              index := Some (foldl (index_add (item_id item))
                               (default [] (index fs)) keywords);
              index_tmp := None |} /\
     result = Return (JObj [("memory_id", JStr (item_id item));
                            ("success", JBool true)])).
Proof.
  intros content tags item. unfold MemoryWriteTool_execute.
  destruct (bind_kwargs _ _ _ _) as [[]|e]; [| left; eauto].
  fold content tags. rewrite write_body_cases. fold item.
  destruct (truthy content); [| left; eauto].
  destruct (_extract_keywords item) as [keywords|e].
  - right; right. eauto.
  - right; left. eauto.
Qed.

(** X2. memory.write given no content, or a content that counts as false
    (the empty string, null, zero, an empty list), raises and leaves the
    data directory exactly as it was: [ValueError] for an empty content,
    [TypeError] when the arguments do not bind. *)
Theorem write_rejects_empty_content `{rt : PyRuntime} (rnd : nat -> nat)
    (now : string) (fs : FS) (kwargs : dict json) :
  truthy (dict_get_default "content" JNull kwargs) = false ->
  exists e,
    MemoryWriteTool_execute rnd now fs kwargs = (fs, Raise e) /\
    (e = ValueError "content is required" \/ exists msg, e = TypeError msg).
Proof.
  intros Hfalsy. unfold MemoryWriteTool_execute, bind_kwargs.
  destruct (unexpected_kwarg _ kwargs) as [k|].
  - destruct (decide (k = "self")); eexists; split; eauto.
  - destruct (dict_mem "content" kwargs); [| eexists; split; eauto].
    rewrite write_body_cases, Hfalsy. eauto.
Qed.

Lemma write_rejects_empty_content_witness :
  MemoryWriteTool_execute (rt := demo_runtime) demo_rnd demo_now demo_fs
    [("content", JStr ""); ("tags", JArr [JStr "x"])]
  = (demo_fs, Raise (ValueError "content is required")).
Proof.
  destruct (write_rejects_empty_content (rt := demo_runtime) demo_rnd demo_now
              demo_fs [("content", JStr ""); ("tags", JArr [JStr "x"])]
              eq_refl) as (e & Hw & _).
  rewrite Hw. f_equal.
  revert Hw. intros [= <-]. reflexivity.
Defined.



Lemma indexed_under_fold memory_id keywords fs_index kw :
  dict_get_default kw []
    (foldl (index_add memory_id) fs_index keywords)
  = if decide (kw ∈ keywords)
    then set_add memory_id (dict_get_default kw [] fs_index)
    else dict_get_default kw [] fs_index.
Proof.
  unfold dict_get_default at 1. rewrite index_fold_get.
  by destruct (decide (kw ∈ keywords)).
Qed.

(** X4. The keyword index only grows: after any call of memory.write the
    id-list of every keyword is the one before, or the one before with the
    new identifier appended; no keyword and no identifier is ever removed,
    and the keys of the index stay distinct. *)
Theorem write_index_grows `{rt : PyRuntime} (rnd : nat -> nat) (now : string)
    (fs : FS) (kwargs : dict json) :
  let fs' := (MemoryWriteTool_execute rnd now fs kwargs).1 in
  (index_keys_ok fs -> index_keys_ok fs') /\
  forall keyword,
    (indexed_under fs' keyword = indexed_under fs keyword \/
     indexed_under fs' keyword
     = indexed_under fs keyword ++ [generate_memory_id rnd]) /\
    (is_Some (dict_get keyword (default [] (index fs))) ->
     is_Some (dict_get keyword (default [] (index fs')))).
Proof.
  intros fs'. unfold fs'.
  pose proof (write_execute_cases rnd now fs kwargs) as Hc. cbn zeta in Hc.
  destruct (MemoryWriteTool_execute rnd now fs kwargs) as [fs1 result].
  cbn [fst].
  destruct Hc as [[-> _] | [(_ & -> & _) | (_ & kws & _ & -> & _)]].
  - split; [done |]. intros keyword. split; [by left | done].
  - split; [done |]. intros keyword. split; [by left | done].
  - split.
    + unfold index_keys_ok. cbn [index default from_option id].
      apply index_fold_keys_NoDup.
    + intros keyword. unfold indexed_under.
      cbn [index default from_option id].
      rewrite indexed_under_fold, index_fold_get. cbn [item_id new_item].
      destruct (decide (keyword ∈ kws)); [| split; [by left | done]].
      split; [| by eexists].
      unfold set_add. case_bool_decide; [by left | by right].
Qed.

Lemma write_index_grows_witness :
  let fs' := (MemoryWriteTool_execute (rt := demo_runtime) demo_rnd demo_now
                demo_fs [("content", JStr "hello again")]).1 in
  index_keys_ok demo_fs /\ index_keys_ok fs' /\
  indexed_under fs' "hello" = ["mem_1"; "mem_gone"; "mem_dkryFMT07els"] /\
  indexed_under fs' "world" = ["mem_1"].
Proof.
  assert (index_keys_ok demo_fs) as Hok.
  { unfold index_keys_ok. apply (bool_decide_unpack _). by vm_compute. }
  destruct (write_index_grows (rt := demo_runtime) demo_rnd demo_now demo_fs
              [("content", JStr "hello again")]) as [Hkeys _].
  split; [exact Hok |]. split; [exact (Hkeys Hok) |].
  split; vm_compute; reflexivity.
Defined.

(** The keywords of an item whose content and tags are strings, as
    [_extract_keywords] returns them. *)
Lemma extracted_keywords_elem `{rt : PyRuntime} tags content kw :
  kw ∈ set_iter (foldl add_word (foldl add_tag [] (lower <$> tags))
                   (split (lower content)))
  <-> kw ∈ keywords_spec tags content.
Proof.
  set (s1 := foldl add_tag [] (lower <$> tags)).
  destruct (foldl_set_add add_tag Some (lower <$> tags) [])
    as [_ Hin1]; [done |].
  fold s1 in Hin1.
  set (pick := fun word : string =>
         if (3 <=? String.length (keep_alnum word))%nat
         then Some (keep_alnum word) else None).
  destruct (foldl_set_add add_word pick (split (lower content)) s1)
    as [_ Hin2].
  { intros acc a. unfold add_word, pick. by destruct (3 <=? _)%nat. }
  rewrite set_iter_perm, Hin2, Hin1.
  unfold keywords_spec. rewrite elem_of_app, elem_of_nil.
  rewrite (omap_Some_fmap (fun x : string => x)), list_fmap_id.
  assert (omap pick (split (lower content))
          = filter (fun w => (3 <= String.length w)%nat)
              ((fun token => keep_alnum (lower token)) <$> split content))
    as ->; [| tauto].
  rewrite split_lower.
  unfold pick. clear. induction (split content) as [|w l IH]; [done |].
  rewrite !fmap_cons, filter_cons, <- IH. clear IH.
  change (omap ?f (?x :: ?l))
    with (match f x with Some y => y :: omap f l | None => omap f l end).
  cbv beta.
  destruct (3 <=? String.length (keep_alnum (lower w)))%nat eqn:Hlen.
  - apply Nat.leb_le in Hlen. by rewrite decide_True.
  - apply Nat.leb_gt in Hlen. rewrite decide_False; [done | lia].
Qed.

(** A write of string content and tags, in full. *)
Lemma write_strings `{rt : PyRuntime} rnd now fs content tags :
  content ≠ "" ->
  let item := written_item rnd now content tags in
  let keywords :=
    set_iter (foldl add_word (foldl add_tag [] (lower <$> tags))
                (split (lower content))) in
  MemoryWriteTool_execute rnd now fs
    [("content", JStr content); ("tags", JArr (JStr <$> tags))]
  = ({| items := <[generate_memory_id rnd := item_to_dict item]> (items fs);
        index := Some (foldl (index_add (generate_memory_id rnd))
                         (default [] (index fs)) keywords);
        index_tmp := None |},
     Return (JObj [("memory_id", JStr (generate_memory_id rnd));
                   ("success", JBool true)])).
Proof.
  intros Hc item keywords.
  unfold MemoryWriteTool_execute.
  change (bind_kwargs _ _ _ _) with (Return ()). cbv iota.
  change (dict_get_default "content" JNull _) with (JStr content).
  change (dict_get_default "tags" JNull _) with (JArr (JStr <$> tags)).
  rewrite write_body_cases, truthy_str by done.
  assert (new_item rnd now (JStr content) (JArr (JStr <$> tags)) = item)
    as ->.
  { unfold new_item. by rewrite tags_or_empty. }
  by rewrite (extract_keywords_returns item tags content eq_refl eq_refl).
Qed.

(** X5. A successful write of string content and tags lists the new
    identifier under every keyword of the record: each case-folded tag and
    each cleaned word of the content of three characters or more. *)
Theorem write_indexes_keywords `{rt : PyRuntime} (rnd : nat -> nat)
    (now : string) (fs : FS) (content : string) (tags : list string)
    (keyword : string) :
  content ≠ "" ->
  keyword ∈ keywords_spec tags content ->
  let fs' := (MemoryWriteTool_execute rnd now fs
                [("content", JStr content);
                 ("tags", JArr (JStr <$> tags))]).1 in
  generate_memory_id rnd ∈ indexed_under fs' keyword.
Proof.
  intros Hc Hkw fs'. unfold fs'. rewrite write_strings by done.
  unfold indexed_under. cbn [fst index default from_option id].
  rewrite indexed_under_fold.
  rewrite decide_True by by apply extracted_keywords_elem.
  apply set_add_elem. by left.
Qed.

Lemma write_indexes_keywords_witness :
  let fs' := (MemoryWriteTool_execute (rt := demo_runtime) demo_rnd demo_now
                demo_fs [("content", JStr "Hello, World!");
                         ("tags", JArr (JStr <$> ["Greeting"]))]).1 in
  "Hello, World!" ≠ "" /\
  "world" ∈ keywords_spec ["Greeting"] "Hello, World!" /\
  generate_memory_id demo_rnd ∈ indexed_under fs' "world".
Proof.
  assert ("Hello, World!" ≠ "") as Hc by discriminate.
  assert ("world" ∈ keywords_spec ["Greeting"] "Hello, World!") as Hkw.
  { vm_compute. set_solver. }
  split; [exact Hc |]. split; [exact Hkw |].
  exact (write_indexes_keywords (rt := demo_runtime) demo_rnd demo_now demo_fs
           "Hello, World!" ["Greeting"] "world" Hc Hkw).
Defined.

(** X6. Updating the index for an item a second time changes nothing: the
    identifier is appended only where it is not listed yet, so the update
    can be repeated safely. *)
Theorem update_keyword_index_idempotent `{rt : PyRuntime} (fs : FS)
    (item : Item) :
  let '(fs1, result1) := _update_keyword_index fs item in
  _update_keyword_index fs1 item = (fs1, result1).
Proof.
  unfold _update_keyword_index.
  destruct (_extract_keywords item) as [keywords|e].
  - cbn [index items index_tmp default from_option id].
    rewrite index_fold_present; [done |].
    intros kw Hkw. rewrite index_fold_get, decide_True by done.
    eexists. split; [reflexivity |]. apply set_add_elem. by left.
  - reflexivity.
Qed.

(** ** Search after write *)

(** X7. A record just written is found: after a successful write of string
    content and tags into a store of well-formed records, a search whose
    case-folded query occurs in one of the record's keywords, with top_k at
    least the number of matching identifiers, returns that record with the
    content and tags written. *)
Theorem write_then_search `{rt : PyRuntime} (rnd : nat -> nat) (now : string)
    (fs : FS) (content : string) (tags : list string)
    (keyword query : string) (top_k : Z) :
  records_ok fs ->
  content ≠ "" ->
  keyword ∈ keywords_spec tags content ->
  all_space query = false ->
  contains (lower query) keyword = true ->
  let fs' := (MemoryWriteTool_execute rnd now fs
                [("content", JStr content);
                 ("tags", JArr (JStr <$> tags))]).1 in
  let matching := matching_ids (lower query) (default [] (index fs')) in
  Z.of_nat (length matching) <= top_k ->
  exists results,
    MemorySearchTool_execute fs'
      [("query", JStr query); ("top_k", JInt top_k)]
    = Return (JObj [("results", JArr results);
                    ("count", JInt (Z.of_nat (length results)))]) /\
    JObj [("id", JStr (generate_memory_id rnd)); ("content", JStr content);
          ("keywords", JArr (JStr <$> tags))] ∈ results.
Proof.
  intros Hrec Hc Hkw Hq Hsub fs' matching Htop.
  assert (records_ok fs') as Hrec' by by apply write_preserves_records_ok.
  rewrite search_execute_top_k, search_body_nonblank by done.
  fold matching. rewrite py_slice_to_nonneg by lia.
  cbn [mbind outcome_bind]. rewrite load_results_ok by done.
  eexists. split; [reflexivity |].
  rewrite take_ge by (rewrite set_iter_perm; lia).
  assert (items fs' !! generate_memory_id rnd
          = Some (item_to_dict (written_item rnd now content tags)))
    as Hstored.
  { unfold fs'. rewrite write_strings by done. cbn [fst items].
    by rewrite lookup_insert_eq. }
  assert (generate_memory_id rnd ∈ matching) as Hin.
  { apply matching_ids_spec. eexists keyword, _. split_and!; [| done |].
    - apply dict_get_elem. unfold fs'. rewrite write_strings by done.
      cbn [fst index default from_option id].
      rewrite index_fold_get.
      rewrite decide_True by by apply extracted_keywords_elem.
      reflexivity.
    - apply set_add_elem. by left. }
  apply (list_elem_of_fmap_2' search_result _
           (item_to_dict (written_item rnd now content tags)));
    [| reflexivity].
  apply list_elem_of_omap. exists (generate_memory_id rnd).
  split; [by rewrite set_iter_perm | exact Hstored].
Qed.

Lemma write_then_search_witness :
  let fs' := (MemoryWriteTool_execute (rt := demo_runtime) demo_rnd demo_now
                demo_fs [("content", JStr "Hello, World!");
                         ("tags", JArr (JStr <$> ["Greeting"]))]).1 in
  exists results,
    MemorySearchTool_execute (rt := demo_runtime) fs'
      [("query", JStr "ORL"); ("top_k", JInt 5)]
    = Return (JObj [("results", JArr results);
                    ("count", JInt (Z.of_nat (length results)))]) /\
    JObj [("id", JStr (generate_memory_id demo_rnd));
          ("content", JStr "Hello, World!");
          ("keywords", JArr (JStr <$> ["Greeting"]))] ∈ results.
Proof.
  apply (write_then_search (rt := demo_runtime) demo_rnd demo_now demo_fs
           "Hello, World!" ["Greeting"] "world" "ORL" 5).
  - exact demo_fs_records_ok.
  - discriminate.
  - vm_compute. set_solver.
  - reflexivity.
  - reflexivity.
  - vm_compute. discriminate.
Defined.

(** ** memory.search, continued *)

Lemma search_execute_any `{rt : PyRuntime} fs (query top_k : json) :
  MemorySearchTool_execute fs [("query", query); ("top_k", top_k)]
  = MemorySearchTool_body fs query top_k.
Proof. reflexivity. Qed.

Lemma set_iter_nil `{rt : PyRuntime} : set_iter [] = [].
Proof. apply Permutation_nil_r. by rewrite set_iter_perm. Qed.

(** X8. When no indexed keyword contains the case-folded query, and in
    particular when there is no index file yet, memory.search returns no
    results and count 0 for every query string and every integer top_k,
    without reading any record. *)
Theorem search_no_match `{rt : PyRuntime} (fs : FS) (query : string)
    (top_k : Z) :
  (forall keyword ids, (keyword, ids) ∈ default [] (index fs) ->
     contains (lower query) keyword = false) ->
  MemorySearchTool_execute fs [("query", JStr query); ("top_k", JInt top_k)]
  = Return (JObj [("results", JArr []); ("count", JInt 0)]).
Proof.
  intros Hnone. rewrite search_execute_any.
  destruct (all_space query) eqn:Hq; [by apply search_body_blank |].
  rewrite search_body_nonblank by done.
  assert (matching_ids (lower query) (default [] (index fs)) = []) as ->.
  { destruct (matching_ids_spec (lower query) (default [] (index fs)))
      as [_ Hin].
    destruct (matching_ids _ _) as [|id l] eqn:Hm; [done |].
    destruct (proj1 (Hin id)) as (kw & ids & Hidx & Hc & _); [left |].
    rewrite (Hnone kw ids Hidx) in Hc. discriminate. }
  rewrite set_iter_nil. unfold py_slice_to. by rewrite take_nil.
Qed.

Lemma search_no_match_witness :
  MemorySearchTool_execute (rt := demo_runtime) fs_empty
    [("query", JStr "test"); ("top_k", JInt 5)]
  = Return (JObj [("results", JArr []); ("count", JInt 0)]) /\
  MemorySearchTool_execute (rt := demo_runtime) demo_fs
    [("query", JStr "zebra"); ("top_k", JInt (-2))]
  = Return (JObj [("results", JArr []); ("count", JInt 0)]).
Proof.
  split.
  - apply (search_no_match (rt := demo_runtime) fs_empty "test" 5).
    intros keyword ids Hin. by apply elem_of_nil in Hin.
  - apply (search_no_match (rt := demo_runtime) demo_fs "zebra" (-2)).
    intros keyword ids Hin. cbn in Hin.
    apply elem_of_cons in Hin as [[= -> _] | Hin]; [reflexivity |].
    apply elem_of_cons in Hin as [[= -> _] | Hin]; [reflexivity |].
    by apply elem_of_nil in Hin.
Defined.

Lemma load_results_length fs ids results :
  load_results fs ids = Return results -> (length results <= length ids)%nat.
Proof.
  revert results. induction ids as [|id ids IH]; intros results.
  - intros [= <-]. done.
  - cbn [load_results]. destruct (_load_item fs id) as [item|].
    + destruct (truthy (JObj item)).
      * destruct (subscript item "id") as [v|]; [| done].
        destruct (subscript item "content") as [c|]; [| done].
        cbn [mbind outcome_bind].
        destruct (load_results fs ids) as [rest|]; [| done].
        cbn [mbind outcome_bind mret outcome_ret]. intros [= <-].
        specialize (IH rest eq_refl). simpl. lia.
      * intros Hr. specialize (IH results Hr). simpl. lia.
    + intros Hr. specialize (IH results Hr). simpl. lia.
Qed.

(** X9. Whatever the data directory holds, a search that returns with a
    top_k that is not negative returns at most top_k results, never more
    than there are matching identifiers, and a count equal to their
    number. *)
Theorem search_count_bound `{rt : PyRuntime} (fs : FS) (query : string)
    (top_k : Z) (response : json) :
  0 <= top_k ->
  MemorySearchTool_execute fs [("query", JStr query); ("top_k", JInt top_k)]
  = Return response ->
  exists results,
    response = JObj [("results", JArr results);
                     ("count", JInt (Z.of_nat (length results)))] /\
    Z.of_nat (length results) <= top_k /\
    (length results
     <= length (matching_ids (lower query) (default [] (index fs))))%nat.
Proof.
  intros Htop. rewrite search_execute_any.
  destruct (all_space query) eqn:Hq.
  - rewrite search_body_blank by done. intros [= <-].
    exists []. split_and!; [done | simpl; lia | simpl; lia].
  - rewrite search_body_nonblank, py_slice_to_nonneg by done.
    cbn [mbind outcome_bind].
    destruct (load_results fs _) as [results|] eqn:Hload; [| done].
    cbn [mbind outcome_bind mret outcome_ret]. intros [= <-].
    exists results. split; [done |].
    apply load_results_length in Hload. rewrite length_take in Hload.
    pose proof (Permutation_length
                  (set_iter_perm (matching_ids (lower query)
                                    (default [] (index fs))))) as Hlen.
    lia.
Qed.

Lemma search_count_bound_witness :
  exists results,
    MemorySearchTool_execute (rt := demo_runtime) spaced_fs
      [("query", JStr "a"); ("top_k", JInt 1)]
    = Return (JObj [("results", JArr results);
                    ("count", JInt (Z.of_nat (length results)))]) /\
    Z.of_nat (length results) <= 1.
Proof.
  destruct (search_count_bound (rt := demo_runtime) spaced_fs "a" 1 _
              ltac:(lia) eq_refl) as (results & Hr & Hlen & _).
  exists results. split; [| exact Hlen].
  rewrite <- Hr. reflexivity.
Defined.

(** X10. memory.search and values of the wrong type: a query that counts
    as false (null, zero, an empty list) gives the empty result like the
    empty string; any other query that is not a string raises
    [AttributeError]; and a top_k that is no int, bool or null raises
    [TypeError], but only once the query has passed the guard. *)
Theorem search_dynamic_types `{rt : PyRuntime} (fs : FS) (query top_k : json) :
  let call :=
    MemorySearchTool_execute fs [("query", query); ("top_k", top_k)] in
  (truthy query = false ->
   call = Return (JObj [("results", JArr []); ("count", JInt 0)])) /\
  (truthy query = true -> (forall s, query ≠ JStr s) ->
   call = Raise (AttributeError
                   ("'" +:+ type_name query
                    +:+ "' object has no attribute 'strip'"))) /\
  (forall s, query = JStr s -> is_slice_index top_k = false ->
   call = if all_space s
          then Return (JObj [("results", JArr []); ("count", JInt 0)])
          else Raise (TypeError
            "slice indices must be integers or None or have an __index__ method")).
Proof.
  intros call. unfold call. rewrite search_execute_any. split_and!.
  - intros Hq. unfold MemorySearchTool_body. by rewrite Hq.
  - intros Hq Hns. unfold MemorySearchTool_body. rewrite Hq. cbn [negb].
    destruct query; try done. by destruct (Hns s).
  - intros s -> Hk. destruct (all_space s) eqn:Hs.
    + by apply search_body_blank.
    + rewrite search_body_nonblank by done. by destruct top_k.
Qed.

Lemma search_dynamic_types_witness :
  MemorySearchTool_execute (rt := demo_runtime) demo_fs
    [("query", JNull); ("top_k", JStr "many")]
  = Return (JObj [("results", JArr []); ("count", JInt 0)]) /\
  MemorySearchTool_execute (rt := demo_runtime) demo_fs
    [("query", JInt 7); ("top_k", JInt 5)]
  = Raise (AttributeError "'int' object has no attribute 'strip'") /\
  MemorySearchTool_execute (rt := demo_runtime) demo_fs
    [("query", JStr "hello"); ("top_k", JStr "many")]
  = Raise (TypeError
      "slice indices must be integers or None or have an __index__ method").
Proof.
  split_and!.
  - apply (search_dynamic_types (rt := demo_runtime) demo_fs JNull
             (JStr "many")). reflexivity.
  - pose proof (search_dynamic_types (rt := demo_runtime) demo_fs (JInt 7)
                  (JInt 5)) as (_ & Hattr & _).
    apply Hattr; [reflexivity | discriminate].
  - pose proof (search_dynamic_types (rt := demo_runtime) demo_fs
                  (JStr "hello") (JStr "many")) as (_ & _ & Htype).
    exact (Htype "hello" eq_refl eq_refl).
Defined.

(** ** Records and their identifiers *)

Lemma result_id_search_result item :
  result_id (search_result item) = Some (dict_get_default "id" JNull item).
Proof. reflexivity. Qed.

(** X11. The [id] stored in a record is always the name of its file: the
    property holds of the empty directory and every call of memory.write
    keeps it, so a record read back by one identifier never reports
    another. *)
Theorem write_keeps_store_keyed `{rt : PyRuntime} (rnd : nat -> nat)
    (now : string) (fs : FS) (kwargs : dict json) :
  store_keyed fs_empty /\
  (store_keyed fs ->
   store_keyed (MemoryWriteTool_execute rnd now fs kwargs).1).
Proof.
  split.
  - intros id item Hitem. cbn in Hitem. by rewrite lookup_empty in Hitem.
  - intros Hkeyed.
    pose proof (write_execute_cases rnd now fs kwargs) as Hc. cbn zeta in Hc.
    destruct (MemoryWriteTool_execute rnd now fs kwargs) as [fs1 result].
    cbn [fst].
    destruct Hc as [[-> _] | [(_ & -> & _) | (_ & kws & _ & -> & _)]];
      [done | |].
    all: intros id item; cbn [items with_record];
      intros [[<- <-] | [_ Hitem]]%lookup_insert_Some;
      [reflexivity | by apply Hkeyed].
Qed.

Lemma write_keeps_store_keyed_witness :
  store_keyed demo_fs /\
  store_keyed (MemoryWriteTool_execute (rt := demo_runtime) demo_rnd demo_now
                 demo_fs [("content", JStr "Second record")]).1.
Proof.
  assert (store_keyed demo_fs) as Hk.
  { intros id item Hitem. cbn in Hitem.
    by apply lookup_singleton_Some in Hitem as [<- <-]. }
  split; [exact Hk |].
  exact (proj2 (write_keeps_store_keyed (rt := demo_runtime) demo_rnd demo_now
                  demo_fs [("content", JStr "Second record")]) Hk).
Defined.

Lemma keyed_results_distinct fs (selected : list string) :
  store_keyed fs -> NoDup selected ->
  NoDup (search_result <$> load_existing fs selected) /\
  forall result, result ∈ search_result <$> load_existing fs selected ->
    exists id, id ∈ selected /\ result_id result = Some (JStr id) /\
               is_Some (items fs !! id).
Proof.
  intros Hkeyed. induction selected as [|i sel IH]; intros Hnd.
  - split; [apply NoDup_nil_2 |]. intros r Hr. by apply elem_of_nil in Hr.
  - apply NoDup_cons in Hnd as [Hi Hsel]. destruct (IH Hsel) as [IHnd IHin].
    unfold load_existing in *. cbn [omap list_omap].
    destruct (items fs !! i) as [item|] eqn:Hitem.
    + assert (result_id (search_result item) = Some (JStr i)) as Hid.
      { rewrite result_id_search_result. unfold dict_get_default.
        by rewrite (Hkeyed i item Hitem). }
      rewrite fmap_cons. split.
      * apply NoDup_cons. split; [| done]. intros Hin.
        destruct (IHin _ Hin) as (j & Hj & Hidj & _).
        rewrite Hid in Hidj. injection Hidj as ->. done.
      * intros r [-> | Hr]%elem_of_cons.
        -- exists i. split_and!; [left | done | by eexists].
        -- destruct (IHin r Hr) as (j & Hj & Hidj & Hsome).
           exists j. split_and!; [by right | done | done].
    + split; [done |]. intros r Hr.
      destruct (IHin r Hr) as (j & Hj & Hidj & Hsome).
      exists j. split_and!; [by right | done | done].
Qed.

(** X12. In a store whose records carry their own identifier, a search
    never returns a record twice, and every result is a stored record
    whose identifier is listed under a keyword that contains the
    case-folded query. This holds for every integer top_k. *)
Theorem search_results_distinct `{rt : PyRuntime} (fs : FS) (query : string)
    (top_k : Z) :
  store_keyed fs -> records_ok fs ->
  exists results,
    MemorySearchTool_execute fs
      [("query", JStr query); ("top_k", JInt top_k)]
    = Return (JObj [("results", JArr results);
                    ("count", JInt (Z.of_nat (length results)))]) /\
    NoDup results /\
    forall result, result ∈ results ->
      exists id keyword ids,
        result_id result = Some (JStr id) /\
        is_Some (items fs !! id) /\
        (keyword, ids) ∈ default [] (index fs) /\
        contains (lower query) keyword = true /\ id ∈ ids.
Proof.
  intros Hkeyed Hrec. rewrite search_execute_any.
  destruct (all_space query) eqn:Hq.
  - rewrite search_body_blank by done. exists []. split_and!; [done | |].
    + apply NoDup_nil_2.
    + intros r Hr. by apply elem_of_nil in Hr.
  - rewrite search_body_nonblank by done.
    set (matching := matching_ids (lower query) (default [] (index fs))).
    destruct (matching_ids_spec (lower query) (default [] (index fs)))
      as [Hnd Hin]. fold matching in Hnd, Hin.
    unfold py_slice_to.
    set (selected := take _ (set_iter matching)).
    cbn [mbind outcome_bind]. rewrite load_results_ok by done.
    assert (NoDup selected) as Hsel.
    { apply (sublist_NoDup selected (set_iter matching));
        [by rewrite set_iter_perm | apply sublist_take]. }
    destruct (keyed_results_distinct fs selected Hkeyed Hsel) as [Hd Hres].
    eexists. split_and!; [reflexivity | exact Hd |].
    intros r Hr. destruct (Hres r Hr) as (id & Hid & Hrid & Hsome).
    assert (id ∈ matching) as Hm.
    { rewrite <- (set_iter_perm matching).
      eapply subseteq_take. exact Hid. }
    apply Hin in Hm as (kw & ids & Hidx & Hc & Hids).
    by exists id, kw, ids.
Qed.

Lemma search_results_distinct_witness :
  exists results,
    MemorySearchTool_execute (rt := demo_runtime) demo_fs
      [("query", JStr "o"); ("top_k", JInt (-1))]
    = Return (JObj [("results", JArr results);
                    ("count", JInt (Z.of_nat (length results)))]) /\
    NoDup results.
Proof.
  assert (store_keyed demo_fs) as Hk.
  { intros id item Hitem. cbn in Hitem.
    by apply lookup_singleton_Some in Hitem as [<- <-]. }
  destruct (search_results_distinct (rt := demo_runtime) demo_fs "o" (-1)
              Hk demo_fs_records_ok) as (results & Hs & Hnd & _).
  by exists results.
Defined.

(** ** The tool registry *)

(** X13. After [register_tool] the tool is found under its name, every
    other name resolves as before, no name is listed twice, and the
    registry has one more entry exactly when the name was new: a tool
    registered under a name already taken replaces the earlier one in
    place. The lifecycle flags are not touched. *)
Theorem register_tool_spec {W : Type} (self : MCPProtocol W) (tool : Tool W) :
  let self' := register_tool self tool in
  tools_get self' (JStr (name tool)) = Return (Some tool) /\
  (forall other, other ≠ name tool ->
     tools_get self' (JStr other) = tools_get self (JStr other)) /\
  (registry_ok self -> registry_ok self') /\
  (tools self').*1
  = (if dict_mem (name tool) (tools self) then (tools self).*1
     else (tools self).*1 ++ [name tool]) /\
  initialized self' = initialized self /\ _running self' = _running self.
Proof.
  intros self'. unfold self', register_tool, tools_get, registry_ok.
  cbn [tools initialized _running]. split_and!.
  - by rewrite dict_get_set_eq.
  - intros other Hne. by rewrite dict_get_set_ne.
  - apply dict_set_keys_NoDup.
  - apply dict_set_keys.
  - reflexivity.
  - reflexivity.
Qed.

(** X14. [unregister_tool] answers whether the name was registered. When
    it was, the name is not found afterwards (no name being registered
    twice); when it was not, the dispatcher is unchanged. Every other name
    resolves as before and the names stay distinct. *)
Theorem unregister_tool_spec {W : Type} (self : MCPProtocol W)
    (name : string) :
  let '(self', removed) := unregister_tool self name in
  removed = dict_mem name (tools self) /\
  (removed = false -> self' = self) /\
  (registry_ok self ->
   tools_get self' (JStr name) = Return None /\ registry_ok self') /\
  (forall other, other ≠ name ->
     tools_get self' (JStr other) = tools_get self (JStr other)) /\
  initialized self' = initialized self /\ _running self' = _running self.
Proof.
  unfold unregister_tool, tools_get, registry_ok.
  destruct (dict_mem name (tools self)) eqn:Hm; cbn [tools initialized _running].
  - split_and!; try done.
    + intros Hok. split; [by rewrite dict_get_del_eq |].
      eapply sublist_NoDup; [exact Hok | apply dict_del_keys_sublist].
    + intros other Hne. by rewrite dict_get_del_ne.
  - split_and!; try done. intros Hok. split; [| done].
    unfold dict_mem in Hm. by destruct (dict_get name (tools self)).
Qed.

Lemma unregister_tool_spec_witness :
  registry_ok demo_server /\
  (unregister_tool demo_server "memory.search").2 = true /\
  tools_get (unregister_tool demo_server "memory.search").1
    (JStr "memory.search") = Return None /\
  ((fun entry => entry.1)
     <$> tools (unregister_tool demo_server "memory.search").1)
  = ["memory.write"; "memory.get"].
Proof.
  assert (registry_ok demo_server) as Hok.
  { unfold registry_ok. apply (bool_decide_unpack _). by vm_compute. }
  pose proof (unregister_tool_spec demo_server "memory.search") as Hspec.
  destruct (unregister_tool demo_server "memory.search") as [self' removed]
    eqn:Hu.
  destruct Hspec as (Hflag & _ & Hgone & _).
  split; [exact Hok |]. split; [by rewrite Hflag |].
  split; [exact (proj1 (Hgone Hok)) |].
  injection Hu as <- _. reflexivity.
Defined.

(** X15. Registering a tool under a name that is free and unregistering
    that name again gives back the dispatcher as it was. *)
Theorem register_unregister {W : Type} (self : MCPProtocol W)
    (tool : Tool W) :
  tools_get self (JStr (name tool)) = Return None ->
  unregister_tool (register_tool self tool) (name tool) = (self, true).
Proof.
  intros [= Hfree]. unfold unregister_tool, register_tool.
  cbn [tools initialized _running].
  unfold dict_mem. rewrite dict_get_set_eq, dict_del_set_fresh by done.
  by destruct self.
Qed.

Lemma register_unregister_witness :
  let self := (unregister_tool demo_server "memory.get").1 in
  tools_get self (JStr "memory.get") = Return None /\
  unregister_tool
    (register_tool self (MemoryGetTool (rt := demo_runtime))) "memory.get"
  = (self, true).
Proof.
  split; [reflexivity |].
  apply (register_unregister _ (MemoryGetTool (rt := demo_runtime))).
  reflexivity.
Defined.

(** X16. [list_tools] lists one descriptor for each registered name, in
    the order of registration: a tool registered under a new name is listed
    last, and one registered under a name already taken leaves the number
    of descriptors as it was. *)
Theorem list_tools_order {W : Type} (self : MCPProtocol W) (tool : Tool W) :
  let listed (p : MCPProtocol W) :=
    (fun entry => to_dict entry.2) <$> tools p in
  list_tools self = JObj [("tools", JArr (listed self))] /\
  length (listed self) = length (tools self).*1 /\
  (tools_get self (JStr (name tool)) = Return None ->
   list_tools (register_tool self tool)
   = JObj [("tools", JArr (listed self ++ [to_dict tool]))]) /\
  (tools_get self (JStr (name tool)) ≠ Return None ->
   length (listed (register_tool self tool)) = length (listed self)).
Proof.
  intros listed. split_and!.
  - reflexivity.
  - unfold listed. by rewrite !length_fmap.
  - intros [= Hfree]. unfold list_tools, register_tool, listed.
    cbn [tools]. do 4 f_equal.
    induction (tools self) as [|[k v] d IH]; [done |].
    cbn [dict_get] in Hfree. cbn [dict_set].
    destruct (decide (k = name tool)); [done |].
    rewrite !fmap_cons, IH by done. done.
  - intros Htaken. unfold listed, register_tool. cbn [tools].
    rewrite !length_fmap.
    assert (exists old, dict_get (name tool) (tools self) = Some old)
      as [old Hold].
    { unfold tools_get in Htaken.
      destruct (dict_get (name tool) (tools self)); [by eexists | done]. }
    clear Htaken. induction (tools self) as [|[k v] d IH]; [done |].
    cbn [dict_get] in Hold. cbn [dict_set].
    destruct (decide (k = name tool)); [done |].
    cbn [length]. by rewrite IH.
Qed.

Lemma list_tools_order_witness :
  let self := (unregister_tool demo_server "memory.get").1 in
  list_tools (register_tool self (MemoryGetTool (rt := demo_runtime)))
  = list_tools demo_server /\
  length (tools (register_tool demo_server
                   (MemoryGetTool (rt := demo_runtime)))) = 3%nat.
Proof.
  split.
  - destruct (list_tools_order (unregister_tool demo_server "memory.get").1
                (MemoryGetTool (rt := demo_runtime))) as (_ & _ & Hnew & _).
    rewrite (Hnew eq_refl). reflexivity.
  - destruct (list_tools_order demo_server
                (MemoryGetTool (rt := demo_runtime))) as (_ & _ & _ & Hold).
    rewrite length_fmap in Hold. rewrite Hold by discriminate.
    reflexivity.
Defined.

Lemma register_tool_spec_witness :
  registry_ok demo_server /\
  registry_ok (register_tool demo_server (MemoryGetTool (rt := demo_runtime)))
  /\
  tools_get (register_tool demo_server (MemoryGetTool (rt := demo_runtime)))
    (JStr "memory.write")
  = tools_get demo_server (JStr "memory.write").
Proof.
  assert (registry_ok demo_server) as Hok.
  { unfold registry_ok. apply (bool_decide_unpack _). by vm_compute. }
  destruct (register_tool_spec demo_server
              (MemoryGetTool (rt := demo_runtime)))
    as (_ & Hother & Hreg & _).
  split; [exact Hok |]. split; [exact (Hreg Hok) |].
  apply Hother. discriminate.
Defined.

(** ** The dispatcher, continued *)

Lemma call_tool_raise `{rt : PyRuntime} {W : Type} (self : MCPProtocol W)
    (w w' : W) (params : json) (e : exn) :
  call_tool self w params = (w', Raise e) ->
  match e with
  | MCPError code _ data => data = JNull /\ code ∈ dispatch_codes
  | _ => True
  end.
Proof.
  unfold call_tool, dispatch_codes.
  destruct params as [| | | | | |d]; try (intros [= _ <-]; exact I).
  cbn [py_get].
  set (name := dict_get_default "name" JNull d).
  set (arguments := dict_get_default "arguments" (JObj []) d).
  destruct (truthy name).
  - cbn [negb]. unfold tools_get.
    destruct name as [| | | |s| |]; try (intros [= _ <-]; exact I);
      try (intros [= _ <-]; split; [done | set_solver]).
    destruct (dict_get s (tools self)) as [tool|].
    + destruct (execute_with tool w arguments) as [w1 [result|e1]];
        intros [= _ <-]. split; [done | set_solver].
    + intros [= _ <-]. split; [done | set_solver].
  - cbn [negb]. intros [= _ <-]. split; [done | set_solver].
Qed.

Lemma dispatch_raise `{rt : PyRuntime} {W : Type} (self : MCPProtocol W)
    (w : W) (method params : json) (e : exn) :
  (dispatch self w method params).2 = Raise e ->
  match e with
  | MCPError code _ data => data = JNull /\ code ∈ dispatch_codes
  | _ => True
  end.
Proof.
  unfold dispatch.
  destruct (is_method method "initialize"); [done |].
  destruct (is_method method "tools/list"); [done |].
  destruct (is_method method "tools/call").
  - destruct (call_tool self w params) as [w' result] eqn:Hcall.
    cbn [snd]. intros ->. by apply (call_tool_raise self w w' params).
  - destruct (is_method method "shutdown"); [done |].
    cbn [snd]. intros [= <-]. split; [done |].
    unfold dispatch_codes. set_solver.
Qed.

Lemma dispatch_frame `{rt : PyRuntime} {W : Type} (self : MCPProtocol W)
    (w : W) (method params : json) :
  let '(self', w', _) := dispatch self w method params in
  tools self' = tools self /\
  (initialized self = true -> initialized self' = true) /\
  (_running self' = true -> _running self = true) /\
  (is_method method "shutdown" = false -> _running self' = _running self) /\
  (is_method method "tools/call" = false -> w' = w).
Proof.
  unfold dispatch.
  destruct (is_method method "initialize") eqn:Hi; [by cbn |].
  destruct (is_method method "tools/list"); [done |].
  destruct (is_method method "tools/call").
  - destruct (call_tool self w params) as [w' result]. by split_and!.
  - destruct (is_method method "shutdown"); [| done]. by cbn.
Qed.

(** X17. Handling a request never changes the registry, never clears the
    initialized flag and never sets the running flag; only a shutdown
    request clears the running flag, and only a tools/call request can
    change what the tools work on. *)
Theorem handle_request_frame `{rt : PyRuntime} {W : Type}
    (self self' : MCPProtocol W) (w w' : W) (request response : json) :
  handle_request self w request = Return (self', w', response) ->
  let method :=
    match request with
    | JObj d => dict_get_default "method" JNull d
    | _ => JNull
    end in
  tools self' = tools self /\
  (initialized self = true -> initialized self' = true) /\
  (_running self' = true -> _running self = true) /\
  (is_method method "shutdown" = false -> _running self' = _running self) /\
  (is_method method "tools/call" = false -> w' = w).
Proof.
  destruct request as [| | | | | |d]; try done.
  rewrite handle_request_object. cbn zeta.
  pose proof (dispatch_frame self w (dict_get_default "method" JNull d)
                (dict_get_default "params" (JObj []) d)) as Hf.
  destruct (dispatch self w _ _) as [[self1 w1] result].
  cbn [fst snd]. by intros [= <- <- _].
Qed.

Lemma handle_request_frame_witness :
  let request := JObj [("id", JInt 1); ("method", JStr "initialize")] in
  exists self',
    handle_request (rt := demo_runtime) demo_server demo_world request
    = Return (self', demo_world,
              _make_response (JInt 1) initialize_result) /\
    tools self' = tools demo_server /\
    _running self' = _running demo_server.
Proof.
  eexists. split; [reflexivity |].
  destruct (handle_request_frame (rt := demo_runtime) demo_server _
              demo_world demo_world
              (JObj [("id", JInt 1); ("method", JStr "initialize")])
              _ eq_refl) as (Htools & _ & _ & Hrun & _).
  split; [exact Htools | exact (Hrun eq_refl)].
Defined.

(** X18. An error response of [handle_request] holds exactly a code and a
    message, never a data field, and its code is MethodNotFound,
    InvalidParams or InternalError: ParseError and InvalidRequest are
    never answered by the dispatcher itself. *)
Theorem handle_request_error_shape `{rt : PyRuntime} {W : Type}
    (self self' : MCPProtocol W) (w w' : W) (request : json)
    (response : dict json) (error : json) :
  handle_request self w request = Return (self', w', JObj response) ->
  dict_get "error" response = Some error ->
  exists code message,
    error = JObj [("code", JInt code); ("message", JStr message)] /\
    code ∈ dispatch_codes.
Proof.
  destruct request as [| | | | | |d]; try done.
  rewrite handle_request_object. cbn zeta.
  pose proof (dispatch_raise self w (dict_get_default "method" JNull d)
                (dict_get_default "params" (JObj []) d)) as Hr.
  destruct (dispatch self w _ _) as [[self1 w1] [result|e]]; cbn [fst snd] in *.
  - intros [= _ _ <-]. done.
  - specialize (Hr e eq_refl).
    destruct e as [code message data| | | |]; intros [= _ _ <-];
      cbn; intros [= <-].
    + destruct Hr as [-> Hcode]. by exists code, message.
    + eexists _, _. split; [reflexivity |]. unfold dispatch_codes. set_solver.
    + eexists _, _. split; [reflexivity |]. unfold dispatch_codes. set_solver.
    + eexists _, _. split; [reflexivity |]. unfold dispatch_codes. set_solver.
    + eexists _, _. split; [reflexivity |]. unfold dispatch_codes. set_solver.
Qed.

Lemma handle_request_error_shape_witness :
  exists code message,
    JObj [("code", JInt INVALID_PARAMS); ("message", JStr "Missing tool name")]
    = JObj [("code", JInt code); ("message", JStr message)] /\
    code ∈ dispatch_codes.
Proof.
  apply (handle_request_error_shape (rt := demo_runtime) demo_server
           demo_server demo_world demo_world
           (JObj [("id", JInt 2); ("method", JStr "tools/call")])
           [("jsonrpc", JStr "2.0"); ("id", JInt 2);
            ("error", JObj [("code", JInt INVALID_PARAMS);
                            ("message", JStr "Missing tool name")])]);
    reflexivity.
Defined.



(** X20. tools/call given values of the wrong shape is answered with
    InternalError, not InvalidParams, and no tool runs: when params is not
    an object (null, a list of positional parameters), when the name is a
    list or an object, and when the arguments of a registered tool are not
    an object. *)
Theorem tools_call_wrong_shape `{rt : PyRuntime} {W : Type}
    (self : MCPProtocol W) (w : W) (request : dict json) :
  let params := dict_get_default "params" (JObj []) request in
  let answer message :=
    Return (self, w,
            _make_error_response (dict_get_default "id" JNull request)
              INTERNAL_ERROR message JNull) in
  is_method (dict_get_default "method" JNull request) "tools/call" = true ->
  ((forall d, params ≠ JObj d) ->
   handle_request self w (JObj request)
   = answer ("'" +:+ type_name params +:+ "' object has no attribute 'get'"))
  /\
  (forall d name,
     params = JObj d -> dict_get "name" d = Some name ->
     truthy name = true ->
     type_name name = "list" \/ type_name name = "dict" ->
     handle_request self w (JObj request)
     = answer ("unhashable type: '" +:+ type_name name +:+ "'")) /\
  (forall d tool arguments,
     params = JObj d -> truthy (dict_get_default "name" JNull d) = true ->
     tools_get self (dict_get_default "name" JNull d) = Return (Some tool) ->
     dict_get "arguments" d = Some arguments ->
     (forall kwargs, arguments ≠ JObj kwargs) ->
     handle_request self w (JObj request)
     = answer (func_str tool
               +:+ "() argument after ** must be a mapping, not "
               +:+ type_name arguments)).
Proof.
  intros params answer Hm. rewrite handle_request_object. cbn zeta.
  fold params. unfold dispatch.
  assert (is_method (dict_get_default "method" JNull request) "initialize"
          = false) as ->.
  { destruct (dict_get_default "method" JNull request); try done.
    cbn in *. case_bool_decide; [subst; done | done]. }
  assert (is_method (dict_get_default "method" JNull request) "tools/list"
          = false) as ->.
  { destruct (dict_get_default "method" JNull request); try done.
    cbn in *. case_bool_decide; [subst; done | done]. }
  rewrite Hm. split_and!.
  - intros Hno. destruct params; try reflexivity. by destruct (Hno d).
  - intros d name -> Hname Htruthy Htype. unfold call_tool. cbn [py_get].
    assert (dict_get_default "name" JNull d = name) as ->.
    { unfold dict_get_default. by rewrite Hname. }
    rewrite Htruthy. cbn [negb].
    destruct name; destruct Htype as [Ht|Ht]; try discriminate Ht;
      reflexivity.
  - intros d tool arguments -> Htruthy Hget Hargs Hno.
    unfold call_tool. cbn [py_get]. rewrite Htruthy, Hget. cbn [negb].
    assert (dict_get_default "arguments" (JObj []) d = arguments) as ->.
    { unfold dict_get_default. by rewrite Hargs. }
    destruct arguments; try reflexivity. by destruct (Hno d0).
Qed.

Lemma tools_call_wrong_shape_witness :
  handle_request (rt := demo_runtime) demo_server demo_world
    (JObj [("id", JInt 1); ("method", JStr "tools/call");
           ("params", JArr [JStr "memory.get"])])
  = Return (demo_server, demo_world,
            _make_error_response (JInt 1) INTERNAL_ERROR
              "'list' object has no attribute 'get'" JNull) /\
  handle_request (rt := demo_runtime) demo_server demo_world
    (JObj [("id", JInt 2); ("method", JStr "tools/call");
           ("params", JObj [("name", JArr [JStr "memory.get"])])])
  = Return (demo_server, demo_world,
            _make_error_response (JInt 2) INTERNAL_ERROR
              "unhashable type: 'list'" JNull) /\
  handle_request (rt := demo_runtime) demo_server demo_world
    (JObj [("id", JInt 3); ("method", JStr "tools/call");
           ("params", JObj [("name", JStr "memory.get");
                            ("arguments", JNull)])])
  = Return (demo_server, demo_world,
            _make_error_response (JInt 3) INTERNAL_ERROR
      "mcp_server.tools.memory.MemoryGetTool.execute() argument after ** must be a mapping, not NoneType"
              JNull).
Proof.
  split_and!.
  - destruct (tools_call_wrong_shape (rt := demo_runtime) demo_server
                demo_world
                [("id", JInt 1); ("method", JStr "tools/call");
                 ("params", JArr [JStr "memory.get"])] eq_refl) as (Hp & _).
    apply Hp. discriminate.
  - destruct (tools_call_wrong_shape (rt := demo_runtime) demo_server
                demo_world
                [("id", JInt 2); ("method", JStr "tools/call");
                 ("params", JObj [("name", JArr [JStr "memory.get"])])]
                eq_refl) as (_ & Hn & _).
    exact (Hn _ (JArr [JStr "memory.get"]) eq_refl eq_refl eq_refl
             (or_introl eq_refl)).
  - destruct (tools_call_wrong_shape (rt := demo_runtime) demo_server
                demo_world
                [("id", JInt 3); ("method", JStr "tools/call");
                 ("params", JObj [("name", JStr "memory.get");
                                  ("arguments", JNull)])] eq_refl)
      as (_ & _ & Ha).
    exact (Ha _ (MemoryGetTool (rt := demo_runtime)) JNull eq_refl eq_refl
             eq_refl eq_refl ltac:(discriminate)).
Defined.

(** ** The read loop, continued *)

Lemma is_method_shutdown method :
  is_method method "shutdown" = true ->
  is_method method "initialize" = false /\
  is_method method "tools/list" = false /\
  is_method method "tools/call" = false.
Proof.
  destruct method; try done. cbn. intros Hs%bool_decide_eq_true. by subst.
Qed.

(** X21. A shutdown request in the read loop is answered with an empty
    result and ends the loop: the running flag is cleared, nothing else
    changes, and whatever follows on the input is not read. *)
Theorem run_loop_shutdown `{rt : PyRuntime} {W : Type} (self : MCPProtocol W)
    (w : W) (line : string) (stdin : list string) (request : dict json) :
  _running self = true ->
  strip line ≠ "" ->
  json_loads (strip line) = inl (JObj request) ->
  is_method (dict_get_default "method" JNull request) "shutdown" = true ->
  run_loop self w (line :: stdin)
  = ({| tools := tools self; initialized := initialized self;
        _running := false |},
     w,
     [json_dumps (JObj [("jsonrpc", JStr "2.0");
                        ("id", dict_get_default "id" JNull request);
                        ("result", JObj [])])
      +:+ newline]).
Proof.
  intros Hrun Hline Hparse Hm.
  destruct (is_method_shutdown _ Hm) as (Hi & Hl & Hc).
  rewrite (run_loop_request self
             {| tools := tools self; initialized := initialized self;
                _running := false |} w w line stdin (JObj request)
             (_make_response (dict_get_default "id" JNull request) (JObj [])))
    by (try done; rewrite handle_request_object; cbn zeta; unfold dispatch;
        by rewrite Hi, Hl, Hc, Hm).
  by destruct stdin.
Qed.

Lemma run_loop_shutdown_witness :
  run (rt := shutdown_runtime) demo_server demo_world
    ["bye" +:+ newline; "{}" +:+ newline]
  = ({| tools := tools demo_server; initialized := false; _running := false |},
     demo_world, ["<dict>" +:+ newline]).
Proof.
  apply (run_loop_shutdown (rt := shutdown_runtime)
           {| tools := tools demo_server; initialized := false;
              _running := true |} demo_world ("bye" +:+ newline)
           ["{}" +:+ newline]
           [("id", JInt 1); ("method", JStr "shutdown")]);
    [reflexivity | discriminate | reflexivity | reflexivity].
Defined.

Lemma run_loop_stopped `{rt : PyRuntime} {W : Type} (self : MCPProtocol W)
    (w : W) (stdin : list string) :
  _running self = false -> run_loop self w stdin = (self, w, []).
Proof. intros Hrun. destruct stdin; [done |]. cbn. by rewrite Hrun. Qed.

(** X22. Blank lines do not matter: on an input that has not ended (no
    read returns the empty string), the loop answers and ends exactly as
    it does on the same input with the empty and whitespace-only lines
    taken out. *)
Theorem run_loop_skips_blank `{rt : PyRuntime} {W : Type}
    (self : MCPProtocol W) (w : W) (stdin : list string) :
  Forall (fun line => line ≠ "") stdin ->
  run_loop self w stdin
  = run_loop self w (filter (fun line => strip line ≠ "") stdin).
Proof.
  intros Hlines. revert self w.
  induction Hlines as [|line stdin Hline Hlines IH]; intros self w; [done |].
  rewrite filter_cons. destruct (decide (strip line ≠ "")) as [Hs|Hs].
  - cbn [run_loop]. destruct (_running self); [| done]. cbn [negb].
    rewrite !(decide_False (P := line = "")) by done.
    rewrite !(decide_False (P := strip line = "")) by done.
    destruct (json_loads (strip line)) as [request|message].
    + destruct (handle_request self w request) as [[[self' w'] response]|e];
        [| done].
      by rewrite IH.
    + by rewrite IH.
  - apply dec_stable in Hs. cbn [run_loop].
    destruct (_running self) eqn:Hrun.
    + cbn [negb]. rewrite (decide_False (P := line = "")) by done.
      rewrite (decide_True (P := strip line = "")) by done. apply IH.
    + cbn [negb]. symmetry. by apply run_loop_stopped.
Qed.

Lemma run_loop_skips_blank_witness :
  run (rt := demo_runtime) demo_server demo_world
    [newline; "{}" +:+ newline; "   " +:+ newline; "{oops" +:+ newline]
  = run (rt := demo_runtime) demo_server demo_world
      ["{}" +:+ newline; "{oops" +:+ newline].
Proof.
  apply (run_loop_skips_blank (rt := demo_runtime)).
  repeat constructor; discriminate.
Defined.

(** X23. A line that holds JSON other than an object (a number, a string,
    a list, null) ends the loop without a response: [request.get] raises
    before the [try] of [handle_request], and the loop's last handler
    breaks. The rest of the input is not read. *)
Theorem run_loop_not_object_stops `{rt : PyRuntime} {W : Type}
    (self : MCPProtocol W) (w : W) (line : string) (stdin : list string)
    (request : json) :
  strip line ≠ "" ->
  json_loads (strip line) = inl request ->
  (forall d, request ≠ JObj d) ->
  run_loop self w (line :: stdin) = (self, w, []).
Proof.
  intros Hline Hparse Hno. cbn [run_loop].
  destruct (_running self); [| done]. cbn [negb].
  rewrite (decide_False (P := line = "")) by by apply strip_nonempty.
  rewrite (decide_False (P := strip line = "")) by done.
  rewrite Hparse, handle_request_not_object by done. done.
Qed.

Lemma run_loop_not_object_stops_witness :
  run (rt := demo_runtime) demo_server demo_world
    ["[]" +:+ newline; "{}" +:+ newline]
  = ({| tools := tools demo_server; initialized := false; _running := true |},
     demo_world, []).
Proof.
  apply (run_loop_not_object_stops (rt := demo_runtime) _ demo_world
           ("[]" +:+ newline) ["{}" +:+ newline] (JArr []));
    [discriminate | reflexivity | discriminate].
Defined.

Lemma handle_request_keeps `{rt : PyRuntime} {W : Type}
    (self self' : MCPProtocol W) (w w' : W) (request response : json) :
  handle_request self w request = Return (self', w', response) ->
  tools self' = tools self /\
  (initialized self = true -> initialized self' = true).
Proof.
  destruct request as [| | | | | |d]; try done.
  rewrite handle_request_object. cbn zeta.
  pose proof (dispatch_frame self w (dict_get_default "method" JNull d)
                (dict_get_default "params" (JObj []) d)) as Hf.
  destruct (dispatch self w _ _) as [[self1 w1] result].
  cbn [fst snd]. intros [= <- <- _]. by destruct Hf as (? & ? & _).
Qed.

(** X24. The loop writes at most one line for each line it reads, and when
    it ends the registry is the one it started with and a dispatcher that
    was initialized still is. *)
Theorem run_loop_bounds `{rt : PyRuntime} {W : Type} (self : MCPProtocol W)
    (w : W) (stdin : list string) :
  let '(self', w', out) := run_loop self w stdin in
  (length out <= length stdin)%nat /\
  tools self' = tools self /\
  (initialized self = true -> initialized self' = true).
Proof.
  revert self w. induction stdin as [|line stdin IH]; intros self w; [done |].
  cbn [run_loop]. destruct (_running self); cbn [negb];
    [| by split_and!; [cbn; lia | |]].
  destruct (decide (line = "")); [by split_and!; [cbn; lia | |] |].
  destruct (decide (strip line = "")).
  - specialize (IH self w). destruct (run_loop self w stdin) as [[s1 w1] out].
    destruct IH as (Hlen & Htools & Hinit). split_and!; [cbn; lia | done | done].
  - destruct (json_loads (strip line)) as [request|message].
    + destruct (handle_request self w request) as [[[self1 w1] response]|e]
        eqn:Hh; [| by split_and!; [cbn; lia | |]].
      apply handle_request_keeps in Hh as [Ht Hi].
      specialize (IH self1 w1).
      destruct (run_loop self1 w1 stdin) as [[s2 w2] out].
      destruct IH as (Hlen & Htools & Hinit).
      split_and!; [cbn; lia | congruence | auto].
    + specialize (IH self w).
      destruct (run_loop self w stdin) as [[s1 w1] out].
      destruct IH as (Hlen & Htools & Hinit).
      split_and!; [cbn; lia | done | done].
Qed.

Lemma run_loop_bounds_witness :
  let self := {| tools := tools demo_server; initialized := true;
                 _running := true |} in
  exists self' w' out,
    run_loop (rt := demo_runtime) self demo_world
      ["{}" +:+ newline; "nonsense" +:+ newline; newline]
    = (self', w', out) /\
    (length out <= 3)%nat /\ tools self' = tools self /\
    initialized self' = true.
Proof.
  intros self.
  pose proof (run_loop_bounds (rt := demo_runtime) self demo_world
                ["{}" +:+ newline; "nonsense" +:+ newline; newline]) as H.
  destruct (run_loop (rt := demo_runtime) self demo_world
              ["{}" +:+ newline; "nonsense" +:+ newline; newline])
    as [[self' w'] out].
  destruct H as (Hlen & Htools & Hinit).
  exists self', w', out.
  split; [reflexivity |]. split; [exact Hlen |]. split; [exact Htools |].
  exact (Hinit eq_refl).
Defined.

(** ** The asynchronous loop *)




(** ** The server, end to end *)

Lemma handle_tools_call `{rt : PyRuntime} {W : Type} (self : MCPProtocol W)
    (w : W) (request_id : json) (name : string) (tool : Tool W)
    (arguments : dict json) :
  name ≠ "" ->
  dict_get name (tools self) = Some tool ->
  handle_request self w (tools_call_request request_id name arguments)
  = Return (self, (execute tool w arguments).1,
            match (execute tool w arguments).2 with
            | Return result => _make_response request_id (text_content result)
            | Raise e =>
                _make_error_response request_id INTERNAL_ERROR (str_exn e)
                  JNull
            end).
Proof.
  intros Hname Htool. unfold tools_call_request.
  rewrite handle_request_object.
  change (dict_get_default "id" _ _) with request_id.
  change (dict_get_default "method" _ _) with (JStr "tools/call").
  change (dict_get_default "params" _ _)
    with (JObj [("name", JStr name); ("arguments", JObj arguments)]).
  unfold dispatch.
  change (is_method (JStr "tools/call") "initialize") with false.
  change (is_method (JStr "tools/call") "tools/list") with false.
  change (is_method (JStr "tools/call") "tools/call") with true.
  cbv iota. unfold call_tool.
  change (py_get _ "name" JNull) with (Return (JStr name)).
  change (py_get _ "arguments" (JObj [])) with (Return (JObj arguments)).
  cbv iota. rewrite truthy_str by done. cbn [negb tools_get].
  rewrite Htool. cbn [execute_with].
  destruct (execute tool w arguments) as [w' [result|e]]; reflexivity.
Qed.

(** X26. On the server as [MCPServer] sets it up, a [tools/call] of
    memory.write with a non-empty content string and a list of tags is
    answered with the new identifier, and a [tools/call] of memory.get
    with that identifier is then answered with the record written; the
    registry is the same after both. *)
Theorem server_write_then_get `{rt : PyRuntime} (entropy : nat -> nat -> nat)
    (clock : nat -> string) (fs : FS) (n : nat) (id1 id2 : json)
    (content : string) (tags : list string) :
  content ≠ "" ->
  let server := MCPServer_init entropy clock in
  let memory_id := generate_memory_id (entropy n) in
  let item := written_item (entropy n) (clock n) content tags in
  exists fs',
    handle_request server (fs, n)
      (tools_call_request id1 "memory.write"
         [("content", JStr content); ("tags", JArr (JStr <$> tags))])
    = Return (server, (fs', S n),
              _make_response id1
                (text_content (JObj [("memory_id", JStr memory_id);
                                     ("success", JBool true)]))) /\
    handle_request server (fs', S n)
      (tools_call_request id2 "memory.get" [("memory_id", JStr memory_id)])
    = Return (server, (fs', S n),
              _make_response id2
                (text_content (JObj [("memory", JObj (item_to_dict item))]))).
Proof.
  intros Hc server memory_id item. eexists. split.
  - rewrite (handle_tools_call server (fs, n) id1 "memory.write"
               (MemoryWriteTool entropy clock)) by done.
    cbn [execute MemoryWriteTool fst snd].
    by rewrite write_strings.
  - rewrite (handle_tools_call server _ id2 "memory.get" MemoryGetTool)
      by done.
    cbn [execute MemoryGetTool fst snd].
    rewrite (get_stored _ memory_id (item_to_dict item));
      [done | apply generate_memory_id_nonempty |].
    cbn [items]. by rewrite lookup_insert_eq.
Qed.

Lemma server_write_then_get_witness :
  exists fs',
    handle_request (rt := demo_runtime) demo_server demo_world
      (tools_call_request (JInt 1) "memory.write"
         [("content", JStr "Hello world"); ("tags", JArr [JStr "Greeting"])])
    = Return (demo_server, (fs', S demo_world.2),
              _make_response (JInt 1)
                (text_content (rt := demo_runtime)
                   (JObj [("memory_id",
                           JStr (generate_memory_id (fun i => i)));
                          ("success", JBool true)]))) /\
    handle_request (rt := demo_runtime) demo_server (fs', S demo_world.2)
      (tools_call_request (JInt 2) "memory.get"
         [("memory_id", JStr (generate_memory_id (fun i => i)))])
    = Return (demo_server, (fs', S demo_world.2),
              _make_response (JInt 2)
                (text_content (rt := demo_runtime)
                   (JObj [("memory",
                           JObj (item_to_dict
                                   (written_item (fun i => i) demo_now
                                      "Hello world" ["Greeting"])))]))).
Proof.
  exact (server_write_then_get (rt := demo_runtime) (fun _ i => i)
           (fun _ => demo_now) demo_world.1 demo_world.2 (JInt 1) (JInt 2)
           "Hello world" ["Greeting"] ltac:(discriminate)).
Defined.
